(** * Plantify: the identification pipeline and the watering calculator

    A shallow embedding of the three edge functions ([identify-plant] in its
    Gemini and PlantID revisions, [verify-plant]), of the client-side
    orchestrator [processImage] of [PlantIdentifier.tsx], and of
    [getDaysUntilWatering] as it appears in [Dashboard.tsx] and
    [MyPlants.tsx].

    JavaScript values are an inductive type; numbers are exact rationals
    (the value a JSON literal denotes), strings are byte strings.  The
    built-ins the code calls but does not define ([JSON.parse],
    number-to-string, string-to-number, the text of an engine [TypeError],
    the message of what [new Response] throws) are variables of the section,
    so every statement holds for all of them.  The watering calculator takes
    the time zone of the browser as an argument; the time value of a [Date]
    is an integer or NaN. *)

From Stdlib Require Import String Ascii List ZArith QArith Bool Lia DecimalString.
From Stdlib Require Import Sorted Permutation.
Import ListNotations.
Open Scope string_scope.
Set Warnings "-register-all".

(** ** JavaScript values *)

Inductive value : Type :=
| VUndefined
| VNull
| VBool (b : bool)
| VNum (n : Q)
| VStr (s : string)
| VArr (elems : list value)
| VObj (props : list (string * value)).

(** [!!v]: the falsy values are [undefined], [null], [false], [0] and [""]. *)
Definition truthy (v : value) : bool :=
  match v with
  | VUndefined | VNull => false
  | VBool b => b
  | VNum n => negb (Qeq_bool n 0)
  | VStr s => negb (s =? "")
  | VArr _ | VObj _ => true
  end.

(** [a || b] *)
Definition js_or (a b : value) : value := if truthy a then a else b.

Fixpoint lookup (k : string) (ps : list (string * value)) : value :=
  match ps with
  | [] => VUndefined
  | (k', v) :: rest => if k =? k' then v else lookup k rest
  end.

(** [v?.k], and [v.k] once [v] is known not to be [null] or [undefined].
    None of the property names the program reads is defined on the
    prototype of a string, number, boolean or array, so only objects answer. *)
Definition prop (v : value) (k : string) : value :=
  match v with
  | VObj ps => lookup k ps
  | _ => VUndefined
  end.

(** [v?.[0]], and [v[0]] for a [v] that is not [null] or [undefined]. *)
Definition index0 (v : value) : value :=
  match v with
  | VArr (x :: _) => x
  | VStr (String c _) => VStr (String c "")
  | VObj ps => lookup "0" ps
  | _ => VUndefined
  end.

Definition nullish (v : value) : bool :=
  match v with
  | VUndefined | VNull => true
  | _ => false
  end.

(** Thrown values: every one the program can meet is an [Error]. *)
Inductive exn : Type := JsError (message : string).

Definition message_of (e : exn) : string := let (m) := e in m.

(** ** Strings *)

(** [s.split(sep)] for a non-empty separator: [skip] counts the characters of
    a separator occurrence still to be dropped, [cur] is the piece being read. *)
Fixpoint split_go (sep : string) (skip : nat) (cur s : string) : list string :=
  match s with
  | EmptyString => [cur]
  | String c s' =>
      match skip with
      | S k => split_go sep k cur s'
      | O =>
          if prefix sep s
          then cur :: split_go sep (String.length sep - 1) "" s'
          else split_go sep 0 (cur ++ String c "") s'
      end
  end.

Definition split (sep s : string) : list string := split_go sep 0 "" s.

(** [l.slice(a, b)] for [0 <= a <= b]. *)
Definition slice {A : Type} (a b : nat) (l : list A) : list A :=
  firstn (b - a) (skipn a l).

(** [l.join(sep)] on strings. *)
Definition join (sep : string) (l : list string) : string := String.concat sep l.

(** [s.includes(t)] *)
Fixpoint includes (t s : string) : bool :=
  prefix t s ||
  match s with
  | EmptyString => false
  | String _ s' => includes t s'
  end.

Definition lower_ascii (c : ascii) : ascii :=
  let n := nat_of_ascii c in
  if (65 <=? n)%nat && (n <=? 90)%nat then ascii_of_nat (n + 32) else c.

(** [s.toLowerCase()]; only the letters A to Z change (no other character
    lowers to a letter of the four keywords). *)
Fixpoint toLowerCase (s : string) : string :=
  match s with
  | EmptyString => EmptyString
  | String c s' => String (lower_ascii c) (toLowerCase s')
  end.

(** The regular expression [/\{[\s\S]*\}/]: leftmost opening brace, then as
    much as possible up to the last closing brace. *)
Fixpoint from_first_open (s : string) : option string :=
  match s with
  | EmptyString => None
  | String c s' => if (c =? "{")%char then Some s' else from_first_open s'
  end.

Fixpoint upto_last_close (s : string) : option string :=
  match s with
  | EmptyString => None
  | String c s' =>
      match upto_last_close s' with
      | Some m => Some (String c m)
      | None => if (c =? "}")%char then Some (String c "") else None
      end
  end.

(** [s.match(/\{[\s\S]*\}/)], giving [jsonMatch[0]] when there is a match. *)
Definition match_braces (s : string) : option string :=
  match from_first_open s with
  | None => None
  | Some rest =>
      match upto_last_close rest with
      | Some m => Some (String "{" m)
      | None => None
      end
  end.

(** ** HTTP *)

(** What a handler sends back: [new Response(JSON.stringify(body), {status})];
    [VNull] stands for the empty body of the CORS preflight answer. *)
Record Response : Type := mkResponse { resp_status : Z; resp_body : value }.

(** An incoming request: its method and what [await req.json()] gives, a
    parsed body or the exception of a body that is not JSON. *)
Record Request : Type := mkRequest { req_method : string; req_json : exn + value }.

(** What an upstream provider answers to [fetch]: the status and what
    [await response.json()] gives. *)
Record HttpReply : Type := mkReply { reply_status : Z; reply_json : exn + value }.

(** [response.ok] *)
Definition reply_ok (r : HttpReply) : bool :=
  (200 <=? reply_status r)%Z && (reply_status r <=? 299)%Z.

(** One outbound [fetch]: the address and the image sent (the constant parts
    of the payload are left out). *)
Record Call : Type := mkCall { call_url : string; call_image : value }.

(** The surroundings of a handler run: [Deno.env.get] and the network, which
    either fails (the promise of [fetch] rejects) or delivers a reply. *)
Record World : Type := mkWorld {
  env_get : string -> option string;
  net : Call -> exn + HttpReply
}.

(** [!Deno.env.get(name)] *)
Definition env_missing (w : World) (name : string) : bool :=
  match env_get w name with
  | None => true
  | Some k => (k =? "")
  end.

Definition env_value (w : World) (name : string) : string :=
  match env_get w name with
  | None => "undefined"
  | Some k => k
  end.

(** ** Handler computations: exceptions and the trace of outbound calls *)

Definition IO (A : Type) : Type := list Call -> (exn + A) * list Call.

Definition ret {A : Type} (a : A) : IO A := fun tr => (inr a, tr).

Definition bind {A B : Type} (m : IO A) (k : A -> IO B) : IO B :=
  fun tr =>
    match m tr with
    | (inl e, tr') => (inl e, tr')
    | (inr a, tr') => k a tr'
    end.

Definition try_catch {A : Type} (m : IO A) (h : exn -> IO A) : IO A :=
  fun tr =>
    match m tr with
    | (inl e, tr') => h e tr'
    | (inr a, tr') => (inr a, tr')
    end.

Definition lift {A : Type} (r : exn + A) : IO A := fun tr => (r, tr).

(** [await fetch(url, ...)]: the call is recorded, then the network answers. *)
Definition fetch (w : World) (c : Call) : IO HttpReply :=
  fun tr => (net w c, (tr ++ [c])%list).

Declare Scope io_scope.
Delimit Scope io_scope with io.
Notation "x <- m ;; k" := (bind m (fun x => k))
  (at level 61, m at next level, right associativity) : io_scope.

(** A handler started on an empty trace. *)
Definition run {A : Type} (m : IO A) : (exn + A) * list Call := m [].

(** ** Values on the wire *)

(** The properties of an object that survive serialisation. *)
Definition wire_props (f : value -> value) : list (string * value) -> list (string * value) :=
  fix go (ps : list (string * value)) : list (string * value) :=
    match ps with
    | [] => []
    | (k, x) :: rest =>
        match f x with
        | VUndefined => go rest
        | y => (k, y) :: go rest
        end
    end.

(** [JSON.stringify] on the server followed by the parse on the client: a
    property whose value is [undefined] is dropped, an [undefined] array
    element becomes [null]. *)
Fixpoint wire (v : value) : value :=
  match v with
  | VArr l =>
      VArr (map (fun x => match wire x with VUndefined => VNull | y => y end) l)
  | VObj ps => VObj (wire_props wire ps)
  | _ => v
  end.

(** The response that [new Response(JSON.stringify(body), { status })]
    constructs when it accepts [status], as it does every status written as
    a literal in the handlers (lemma [literal_statuses_accepted]); where the
    status is the provider's, the handlers go through [new_Response]. *)
Definition json_response (status : Z) (body : value) : Response :=
  mkResponse status (wire body).

(** The statuses with which the constructor refuses to build a response that
    has a body: those outside 200 to 599 (a [RangeError]) and the null-body
    statuses 204, 205 and 304 (a [TypeError]).  The literal statuses of the
    handlers (200, 400, 403, 404, 429, 500) are not among them. *)
Definition status_refused (status : Z) : bool :=
  (status <? 200)%Z || (599 <? status)%Z
  || (status =? 204)%Z || (status =? 205)%Z || (status =? 304)%Z.

(** [new Response(null, { headers: corsHeaders })] *)
Definition cors_preflight : Response := mkResponse 200 VNull.

Definition Qlt_bool (x y : Q) : bool := negb (Qle_bool y x).

Definition image_required : Response :=
  json_response 400 (VObj [("error", VStr "Image data is required")]).

(** The address of the verifier's classifier. *)
Definition verify_url : string := "https://ai.gateway.lovable.dev/v1/chat/completions".

(** ** Numbers

    The numbers of the watering calculator are integers or NaN ([None]);
    [-0], which [Math.ceil] gives for a quotient between -1 and 0, is the
    integer 0: the program compares it, subtracts it and shows its absolute
    value, none of which tells the two zeros apart.  Subtraction and
    division are those of doubles, which are exact here: a valid time value
    is at most 8.64e15 in size and the current time lies within 3.6e14 of
    the epoch (until the year 13000), so a difference of the two stays below
    2^53, where every integer is a double and the quotient by 86400000
    rounds without reaching the next integer. *)

Definition number : Type := option Z.

(** [a + b] *)
Definition num_add (a b : number) : number :=
  match a, b with
  | Some x, Some y => Some (x + y)%Z
  | _, _ => None
  end.

(** [a - b] *)
Definition num_sub (a b : number) : number :=
  match a, b with
  | Some x, Some y => Some (x - y)%Z
  | _, _ => None
  end.

(** [a <= b], false when either is NaN. *)
Definition num_leb (a b : number) : bool :=
  match a, b with
  | Some x, Some y => (x <=? y)%Z
  | _, _ => false
  end.

(** ** Dates

    The time value of a [Date] is its milliseconds since the epoch, or NaN
    for an invalid [Date]; the day and calendar functions are those of the
    language definition.  Local time is UTC plus the offset the time zone
    has at that moment, which differs from one moment to another where
    daylight saving begins or ends. *)

Module JSDate.

Definition msPerDay : Z := 86400000.

Definition Day (t : Z) : Z := (t / msPerDay)%Z.

Definition TimeWithinDay (t : Z) : Z := (t mod msPerDay)%Z.

(** The day number of the first day of year [y]. *)
Definition DayFromYear (y : Z) : Z :=
  (365 * (y - 1970) + (y - 1969) / 4 - (y - 1901) / 100 + (y - 1601) / 400)%Z.

Definition leap (y : Z) : bool :=
  ((y mod 4 =? 0)%Z && negb (y mod 100 =? 0)%Z) || (y mod 400 =? 0)%Z.

(** The year a day falls in: the estimate from the mean year length, put
    right by one where it is off. *)
Definition YearFromDay (d : Z) : Z :=
  let y := (1970 + (d * 400) / 146097)%Z in
  if (d <? DayFromYear y)%Z then (y - 1)%Z
  else if (DayFromYear (y + 1) <=? d)%Z then (y + 1)%Z
  else y.

Definition YearFromTime (t : Z) : Z := YearFromDay (Day t).

Definition InLeapYear (t : Z) : Z := if leap (YearFromTime t) then 1%Z else 0%Z.

Definition DayWithinYear (t : Z) : Z := (Day t - DayFromYear (YearFromTime t))%Z.

(** The day within the year on which month [m] (0 to 11) starts. *)
Definition month_start (m l : Z) : Z :=
  (if m =? 0 then 0 else if m =? 1 then 31 else if m =? 2 then 59 + l
   else if m =? 3 then 90 + l else if m =? 4 then 120 + l
   else if m =? 5 then 151 + l else if m =? 6 then 181 + l
   else if m =? 7 then 212 + l else if m =? 8 then 243 + l
   else if m =? 9 then 273 + l else if m =? 10 then 304 + l
   else 334 + l)%Z.

Definition MonthFromTime (t : Z) : Z :=
  let d := DayWithinYear t in
  let l := InLeapYear t in
  (if d <? 31 then 0 else if d <? 59 + l then 1 else if d <? 90 + l then 2
   else if d <? 120 + l then 3 else if d <? 151 + l then 4
   else if d <? 181 + l then 5 else if d <? 212 + l then 6
   else if d <? 243 + l then 7 else if d <? 273 + l then 8
   else if d <? 304 + l then 9 else if d <? 334 + l then 10
   else 11)%Z.

Definition DateFromTime (t : Z) : Z :=
  (DayWithinYear t - month_start (MonthFromTime t) (InLeapYear t) + 1)%Z.

(** The day number of day [date] of month [month] of [year]; months and
    dates out of range carry over. *)
Definition MakeDay (year month date : Z) : Z :=
  let ym := (year + month / 12)%Z in
  let mn := (month mod 12)%Z in
  (DayFromYear ym + month_start mn (if leap ym then 1 else 0) + date - 1)%Z.

Definition MakeDate (day time : Z) : Z := (day * msPerDay + time)%Z.

(** The time zone of the browser: [offset_at t] is the offset of local time
    from UTC in force at the time value [t], and [offset_of_local l] the
    offset by which the local time value [l] is read back as UTC (where
    clocks are set back a local time occurs twice, where they are set
    forward one is skipped: the zone says how it reads them). *)
Record TimeZone : Type := mkZone {
  offset_at : Z -> Z;
  offset_of_local : Z -> Z
}.

Definition LocalTime (z : TimeZone) (t : Z) : Z := (t + offset_at z t)%Z.

Definition UTC (z : TimeZone) (t : Z) : Z := (t - offset_of_local z t)%Z.

(** The time values of a valid [Date] span 100,000,000 days either side of
    the epoch. *)
Definition maxTime : Z := 8640000000000000.

(** What time value a [Date] gets: NaN outside that range. *)
Definition TimeClip (t : Z) : number :=
  if (Z.abs t <=? maxTime)%Z then Some t else None.

(** [new Date(value)] for a time value, or for another [Date]. *)
Definition new_Date (tv : number) : number :=
  match tv with
  | Some t => TimeClip t
  | None => None
  end.

(** [d.getDate()] *)
Definition getDate (z : TimeZone) (tv : number) : number :=
  match tv with
  | Some t => Some (DateFromTime (LocalTime z t))
  | None => None
  end.

(** [d.setDate(date)]: the new time value of [d]. *)
Definition setDate (z : TimeZone) (tv date : number) : number :=
  match tv, date with
  | Some t, Some dt =>
      let lt := LocalTime z t in
      let newDate :=
        MakeDate (MakeDay (YearFromTime lt) (MonthFromTime lt) dt) (TimeWithinDay lt) in
      TimeClip (UTC z newDate)
  | _, _ => None
  end.

(** [Math.ceil(a / b)] for integers [a] and [b > 0]. *)
Definition ceil_div (a b : Z) : Z := (- ((- a) / b))%Z.

(** [Math.ceil(a / b)] for a number [a] and an integer [b > 0]. *)
Definition Math_ceil_div (a : number) (b : Z) : number :=
  match a with
  | Some x => Some (ceil_div x b)
  | None => None
  end.

(** A zone that keeps one offset. *)
Definition fixed_zone (tza : Z) : TimeZone := mkZone (fun _ => tza) (fun _ => tza).

(** A zone whose offset changes once, at the time value [change], from
    [before] to [after]; a local time that occurs twice or not at all is read
    with the offset before the change, as the language definition has it. *)
Definition zone_with_change (change before after : Z) : TimeZone :=
  mkZone (fun t => if (t <? change)%Z then before else after)
         (fun l => if (l <? change + Z.max before after)%Z then before else after).

End JSDate.

(** [getDaysUntilWatering] of Dashboard.tsx.  [lastWatered] is the time
    value that the timestamp string denotes, [today] the time value of the
    [new Date()] read inside, [z] the time zone of the browser. *)
Module Dashboard.
Import JSDate.

Definition getDaysUntilWatering (z : TimeZone) (today lastWatered frequency : Z) : number :=
  let lastWateredDate := new_Date (Some lastWatered) in
  let nextWateringDate := new_Date lastWateredDate in
  let nextWateringDate :=
    setDate z nextWateringDate (num_add (getDate z nextWateringDate) (Some frequency)) in
  let diffTime := num_sub nextWateringDate (Some today) in
  let diffDays := Math_ceil_div diffTime (1000 * 60 * 60 * 24) in
  diffDays.

End Dashboard.

(** [getDaysUntilWatering] of MyPlants.tsx. *)
Module MyPlants.
Import JSDate.

Definition getDaysUntilWatering (z : TimeZone) (today lastWatered frequency : Z) : number :=
  let lastWateredDate := new_Date (Some lastWatered) in
  let nextWateringDate := new_Date lastWateredDate in
  let nextWateringDate :=
    setDate z nextWateringDate (num_add (getDate z nextWateringDate) (Some frequency)) in
  let diffTime := num_sub nextWateringDate (Some today) in
  let diffDays := Math_ceil_div diffTime (1000 * 60 * 60 * 24) in
  diffDays.

End MyPlants.

(** The date of the next watering, as the first three statements of
    [getDaysUntilWatering] compute it. *)
Definition next_watering (z : JSDate.TimeZone) (lastWatered frequency : Z) : number :=
  let nextWateringDate := JSDate.new_Date (JSDate.new_Date (Some lastWatered)) in
  JSDate.setDate z nextWateringDate
    (num_add (JSDate.getDate z nextWateringDate) (Some frequency)).

(** A watering period that neither a change of the zone's offset nor the end
    of the range of [Date] disturbs: the date last watered and the instant
    [frequency] times 24 hours later are valid, and the zone reads the local
    time of the next watering with the offset it had at the last one. *)
Definition undisturbed (z : JSDate.TimeZone) (lastWatered frequency : Z) : Prop :=
  (Z.abs lastWatered <= JSDate.maxTime)%Z /\
  (Z.abs (lastWatered + frequency * JSDate.msPerDay) <= JSDate.maxTime)%Z /\
  JSDate.offset_of_local z (JSDate.LocalTime z lastWatered + frequency * JSDate.msPerDay)
  = JSDate.offset_at z lastWatered.

(** ** Built-ins and inputs of the examples

    One concrete choice of the built-ins, right on the few inputs the examples
    feed it: integers print in decimal, the empty string is the number 0, and
    [JSON.parse] knows the texts listed here. *)

Definition dq : string := String "034"%char "".

Definition quoted (s : string) : string := dq ++ s ++ dq.

(** [{"isPlant":true,"confidence":0.9}] *)
Definition yes_text : string :=
  "{" ++ quoted "isPlant" ++ ":true," ++ quoted "confidence" ++ ":0.9}".

(** [{"isPlant":false,"confidence":0.9}] *)
Definition no_text : string :=
  "{" ++ quoted "isPlant" ++ ":false," ++ quoted "confidence" ++ ":0.9}".

(** [{"identified":true,"confidence":0.9,"commonName":"Rose"}] *)
Definition rose_text : string :=
  "{" ++ quoted "identified" ++ ":true," ++ quoted "confidence" ++ ":0.9,"
      ++ quoted "commonName" ++ ":" ++ quoted "Rose" ++ "}".

(** [{"identified":true,"confidence":0.3,"commonName":"Rose"}] *)
Definition faint_rose_text : string :=
  "{" ++ quoted "identified" ++ ":true," ++ quoted "confidence" ++ ":0.3,"
      ++ quoted "commonName" ++ ":" ++ quoted "Rose" ++ "}".

(** [{"identified":true,"explanation":"Thorny."}] *)
Definition explained_text : string :=
  "{" ++ quoted "identified" ++ ":true," ++ quoted "explanation" ++ ":" ++ quoted "Thorny." ++ "}".

Definition example_JSON_parse (s : string) : exn + value :=
  if s =? "{}" then inr (VObj [])
  else if s =? yes_text then
    inr (VObj [ ("isPlant", VBool true); ("confidence", VNum (9 # 10)) ])
  else if s =? no_text then
    inr (VObj [ ("isPlant", VBool false); ("confidence", VNum (9 # 10)) ])
  else if s =? rose_text then
    inr (VObj [ ("identified", VBool true); ("confidence", VNum (9 # 10));
                ("commonName", VStr "Rose") ])
  else if s =? faint_rose_text then
    inr (VObj [ ("identified", VBool true); ("confidence", VNum (3 # 10));
                ("commonName", VStr "Rose") ])
  else if s =? explained_text then
    inr (VObj [ ("identified", VBool true); ("explanation", VStr "Thorny.") ])
  else inl (JsError "Unexpected token in JSON").

Definition example_Number_toString (n : Q) : string :=
  NilZero.string_of_int (Z.to_int (Qnum n / Zpos (Qden n))).

Definition example_StringToNumber (s : string) : option Q :=
  if s =? "" then Some 0 else None.

Definition example_TypeError_message (who : string) : string :=
  "Cannot read properties of undefined (reading '" ++ who ++ "')".

Definition example_Response_error_message (status : Z) : string :=
  if (status <? 200)%Z || (599 <? status)%Z
  then "The status provided is outside the range [200, 599]"
  else "Response with null body status cannot have body".

(** A chat completion of the verifier's gateway with the given text. *)
Definition chat_completion (text : string) : value :=
  VObj [ ("choices", VArr [ VObj [ ("message", VObj [ ("content", VStr text) ]) ] ]) ].

(** A Gemini answer with the given text. *)
Definition gemini_answer (text : string) : value :=
  VObj [ ("candidates",
          VArr [ VObj [ ("content", VObj [ ("parts", VArr [ VObj [ ("text", VStr text) ] ]) ]) ] ]) ].

(** The provider response of the Rosa scenario. *)
Definition rosa_response : value :=
  VObj [ ("suggestions",
          VArr [ VObj [ ("plant_name", VStr "Rosa");
                        ("probability", VNum (9 # 10));
                        ("plant_details",
                          VObj [ ("common_names", VArr [ VStr "Rose" ]);
                                 ("description",
                                   VObj [ ("value", VStr "A flowering shrub. It has thorns. It blooms in summer. It needs full sun.") ]);
                                 ("watering", VObj [ ("max", VNum 5) ]) ]) ] ]) ].

(** A PlantID answer whose best suggestion has probability 0.3. *)
Definition faint_response : value :=
  VObj [ ("suggestions",
          VArr [ VObj [ ("plant_name", VStr "Rosa"); ("probability", VNum (3 # 10)) ] ]) ].

(** A world with every key configured, in which the verifier's gateway
    answers [verifier] and the identification provider answers [identifier]. *)
Definition example_world (verifier identifier : exn + HttpReply) : World :=
  mkWorld (fun _ => Some "secret")
          (fun c => if call_url c =? verify_url then verifier else identifier).

Definition post (body : value) : Request := mkRequest "POST" (inr body).

(** ** The care dashboard: Dashboard.tsx *)

(** A row of the plants table, as the dashboard reads it; timestamps are
    time values. *)
Record Plant : Type := mkPlant {
  plant_id : string;
  common_name : string;
  scientific_name : string;
  watering_frequency_days : Z;
  last_watered_at : Z
}.

Record Task : Type := mkTask {
  plant : Plant;
  daysUntilWatering : number;
  needsWater : bool
}.

(** The body of the [map] in [fetchTasks]. *)
Definition task_of (z : JSDate.TimeZone) (today : Z) (p : Plant) : Task :=
  let days :=
    Dashboard.getDaysUntilWatering z today (last_watered_at p) (watering_frequency_days p) in
  mkTask p days (num_leb days (Some 0%Z)).

(** The comparator [(a, b) => a.daysUntilWatering - b.daysUntilWatering] as
    the sort reads it: a NaN result counts as 0. *)
Definition compare_tasks (a b : Task) : Z :=
  match num_sub (daysUntilWatering a) (daysUntilWatering b) with
  | Some v => v
  | None => 0%Z
  end.

(** [tasksData.sort(...)]: the sort of an array is stable, so while no count
    is NaN (the comparator is then a consistent one) its result is that of
    the stable insertion below.  With a NaN among the counts the language
    leaves the order to the engine; what is stated about the order below
    assumes there is none. *)
Fixpoint insert_task (t : Task) (l : list Task) : list Task :=
  match l with
  | [] => [t]
  | u :: rest =>
      if (compare_tasks t u <=? 0)%Z then t :: u :: rest
      else u :: insert_task t rest
  end.

Definition sort_tasks (l : list Task) : list Task := fold_right insert_task [] l.

(** [fetchTasks], from the rows the query returned to the tasks shown. *)
Definition fetchTasks (z : JSDate.TimeZone) (today : Z) (rows : list Plant) : list Task :=
  sort_tasks (map (task_of z today) rows).

(** The order of the dashboard, on counts that are numbers. *)
Definition by_days (a b : Task) : Prop :=
  match daysUntilWatering a, daysUntilWatering b with
  | Some x, Some y => (x <= y)%Z
  | _, _ => False
  end.

(** The count of a row is a number: none of its dates is invalid. *)
Definition counted (z : JSDate.TimeZone) (today : Z) (p : Plant) : Prop :=
  daysUntilWatering (task_of z today p) <> None.


(** The date of the next watering of a row has come. *)
Definition watering_due (z : JSDate.TimeZone) (today : Z) (p : Plant) : bool :=
  num_leb (next_watering z (last_watered_at p) (watering_frequency_days p)) (Some today).

(** [tasks.filter((t) => t.needsWater).length] *)
Definition overdueCount (tasks : list Task) : nat :=
  List.length (filter needsWater tasks).

(** ** More on strings *)

(** [s.slice(n)] *)
Fixpoint drop (n : nat) (s : string) : string :=
  match n, s with
  | O, _ => s
  | S k, EmptyString => EmptyString
  | S k, String _ s' => drop k s'
  end.

(** While splitting: no occurrence of [sep] begins inside the piece [cur]
    read so far, with [rest] still to come. *)
Definition clear_of (sep cur rest : string) : Prop :=
  forall a b, cur = a ++ b -> b <> "" -> prefix sep (b ++ rest) = false.

(** Whether the character [c] occurs in [s]. *)
Fixpoint has_char (c : ascii) (s : string) : bool :=
  match s with
  | EmptyString => false
  | String d s' => (c =? d)%char || has_char c s'
  end.

(** [result.split(',')[1]] in [processImage]: the payload of a data URL, or
    nothing when the URL has no comma. *)
Definition base64_of_dataUrl (dataUrl : string) : option string :=
  nth_error (split "," dataUrl) 1.

(** A run [m] of a handler on the request [req] that ends in a response,
    having called nobody or having sent to [url], once, the [imageBase64] of
    the request's body, which is truthy. *)
Definition disciplined (url : string) (req : Request) (m : IO Response) : Prop :=
  exists r tr,
    run m = (inr r, tr) /\
    (tr = [] \/
     exists body,
       req_json req = inr body /\
       truthy (prop body "imageBase64") = true /\
       tr = [ mkCall url (prop body "imageBase64") ]).

(** ** Further inputs of the examples *)

(** [{"identified":false,"confidence":0.99,"commonName":"Rose"}] *)
Definition unsure_text : string :=
  "{" ++ quoted "identified" ++ ":false," ++ quoted "confidence" ++ ":0.99,"
      ++ quoted "commonName" ++ ":" ++ quoted "Rose" ++ "}".

(** The parser of the examples, knowing one more text. *)
Definition example_JSON_parse_more (s : string) : exn + value :=
  if s =? unsure_text then
    inr (VObj [ ("identified", VBool false); ("confidence", VNum (99 # 100));
                ("commonName", VStr "Rose") ])
  else example_JSON_parse s.

(** A world in which no key is configured. *)
Definition keyless_world : World :=
  mkWorld (fun _ => None) (fun _ => inl (JsError "connection refused")).

(** Two plants, the second watered earlier. *)
Definition fern : Plant := mkPlant "p1" "Fern" "Polypodiopsida" 7 1709208000000.
Definition basil : Plant := mkPlant "p2" "Basil" "Ocimum basilicum" 2 1708000000000.

(** New York in 2024: clocks went forward on 10 March at 07:00 UTC and back
    on 3 November at 06:00 UTC. *)
Definition new_york_spring_2024 : JSDate.TimeZone :=
  JSDate.zone_with_change 1710054000000 (-18000000) (-14400000).
Definition new_york_autumn_2024 : JSDate.TimeZone :=
  JSDate.zone_with_change 1730613600000 (-14400000) (-18000000).

(** ** The edge functions *)

Section Runtime.

(** [JSON.parse]: a value, or the [SyntaxError] it throws. *)
Variable JSON_parse : string -> exn + value.
(** Number to string, as a template literal does it. *)
Variable Number_toString : Q -> string.
(** String to number; [None] is [NaN]. *)
Variable StringToNumber : string -> option Q.
(** The message of the [TypeError] the engine throws for [who]. *)
Variable TypeError_message : string -> string.
(** The message of the error [new Response] throws for a status it refuses. *)
Variable Response_error_message : Z -> string.

(** [v.k], which throws on [null] and [undefined]. *)
Definition get (v : value) (k : string) : exn + value :=
  if nullish v then inl (JsError (TypeError_message k)) else inr (prop v k).

(** [new Response(JSON.stringify(body), { status })] for a status that is
    not a literal: the response, or what the constructor throws. *)
Definition new_Response (status : Z) (body : value) : exn + Response :=
  if status_refused status then inl (JsError (Response_error_message status))
  else inr (json_response status body).

(** [`${v}`] *)
Fixpoint to_string (v : value) : string :=
  match v with
  | VUndefined => "undefined"
  | VNull => "null"
  | VBool true => "true"
  | VBool false => "false"
  | VNum n => Number_toString n
  | VStr s => s
  | VArr l => join "," (map (fun x => if nullish x then "" else to_string x) l)
  | VObj _ => "[object Object]"
  end.

(** The number a value is compared as; [None] is [NaN]. *)
Definition to_number (v : value) : option Q :=
  match v with
  | VUndefined => None
  | VNull => Some 0
  | VBool b => Some (if b then 1 else 0)
  | VNum n => Some n
  | VStr s => StringToNumber s
  | VArr _ | VObj _ => StringToNumber (to_string v)
  end.

(** [v < q] for a number literal [q]. *)
Definition lt_number (v : value) (q : Q) : bool :=
  match to_number v with
  | Some x => Qlt_bool x q
  | None => false
  end.

(** *** identify-plant, Gemini revision *)

Definition gemini_url (key : string) : string :=
  "https://generativelanguage.googleapis.com/v1beta/models/gemini-2.0-flash:generateContent?key=" ++ key.

(** The inner [try] block: the object of the completion text, or what is
    thrown on the way ([content.match] is not a function unless [content] is
    a string). *)
Definition gemini_parse (content : value) : exn + value :=
  match content with
  | VStr s =>
      match match_braces s with
      | Some m => JSON_parse m
      | None => inl (JsError "No JSON found in response")
      end
  | _ => inl (JsError (TypeError_message "content.match"))
  end.

(** [!plantData.identified || plantData.confidence < 0.5] *)
Definition gemini_low_confidence (plantData : value) : bool :=
  negb (truthy (prop plantData "identified"))
  || lt_number (prop plantData "confidence") (1 # 2).

Definition gemini_additionalInfo (plantData : value) : list string :=
  [ "Watering: Every " ++ to_string (js_or (prop plantData "wateringFrequencyDays") (VNum 7)) ++ " days";
    "Sunlight: " ++ to_string (js_or (prop plantData "sunlight") (VStr "Moderate indirect light"));
    "Soil: " ++ to_string (js_or (prop plantData "soilType") (VStr "Well-draining potting mix"));
    "Native to: " ++ to_string (js_or (prop plantData "nativeRegion") (VStr "Various regions"));
    "Care Level: " ++ to_string (js_or (prop plantData "careLevel") (VStr "Moderate")) ].

Definition gemini_result (plantData : value) : value :=
  VObj
    [ ("commonName", js_or (prop plantData "commonName") (VStr "Unknown Plant"));
      ("scientificName", js_or (prop plantData "scientificName") (VStr "Species unknown"));
      ("about", js_or (prop plantData "about") (VStr "A beautiful plant species."));
      ("explanation",
        js_or (js_or (prop plantData "explanation") (prop plantData "about"))
              (VStr "No additional details available."));
      ("additionalInfo", VArr (map VStr (gemini_additionalInfo plantData)));
      ("wateringFrequencyDays", js_or (prop plantData "wateringFrequencyDays") (VNum 7));
      ("probability", js_or (prop plantData "confidence") (VNum (4 # 5))) ].

Definition gemini_low_confidence_body (plantData : value) : value :=
  VObj [ ("error", VStr "Low confidence identification");
         ("lowConfidence", VBool true);
         ("probability", js_or (prop plantData "confidence") (VNum 0)) ].

Definition gemini_parse_failure : Response :=
  json_response 200 (VObj [ ("error", VStr "Failed to parse plant data");
                            ("lowConfidence", VBool true) ]).

Definition gemini_no_content : Response :=
  json_response 200 (VObj [ ("error", VStr "No identification result");
                            ("lowConfidence", VBool true) ]).

(** From the completion text on: parse, confidence gate, result.  The first
    read of [plantData] is the one that can throw. *)
Definition gemini_interpret (content : value) : IO Response :=
  match gemini_parse content with
  | inl parseError => ret gemini_parse_failure
  | inr plantData =>
      (identified <- lift (get plantData "identified") ;;
       if negb (truthy identified) || lt_number (prop plantData "confidence") (1 # 2)
       then ret (json_response 200 (gemini_low_confidence_body plantData))
       else ret (json_response 200 (gemini_result plantData)))%io
  end.

(** The non-ok branch; its last [new Response] is given the provider's
    status and throws, into the outer [catch], when it refuses it. *)
Definition gemini_upstream_error (status : Z) : exn + Response :=
  if (status =? 429)%Z then
    inr (json_response 429 (VObj [ ("error", VStr "Rate limit exceeded. Please try again in a moment.");
                                   ("apiError", VBool true) ]))
  else if (status =? 403)%Z then
    inr (json_response 403 (VObj [ ("error", VStr "Invalid API key. Please check your Gemini API key.");
                                   ("apiError", VBool true) ]))
  else
    new_Response status (VObj [ ("error", VStr "Failed to identify plant. Please try again.");
                                ("apiError", VBool true) ]).

Definition identify_plant_gemini (w : World) (req : Request) : IO Response :=
  if req_method req =? "OPTIONS" then ret cors_preflight
  else
    try_catch
      (body <- lift (req_json req) ;;
       imageBase64 <- lift (get body "imageBase64") ;;
       if negb (truthy imageBase64) then ret image_required
       else if env_missing w "GOOGLE_GEMINI_API_KEY" then
         ret (json_response 500 (VObj [ ("error", VStr "API key not configured");
                                        ("apiError", VBool true) ]))
       else
         response <- fetch w (mkCall (gemini_url (env_value w "GOOGLE_GEMINI_API_KEY")) imageBase64) ;;
         if negb (reply_ok response) then lift (gemini_upstream_error (reply_status response))
         else
           aiResponse <- lift (reply_json response) ;;
           candidates <- lift (get aiResponse "candidates") ;;
           let content := prop (index0 (prop (prop (index0 candidates) "content") "parts")) "text" in
           if negb (truthy content) then ret gemini_no_content
           else gemini_interpret content)%io
      (fun error =>
         ret (json_response 500 (VObj [ ("error", VStr (message_of error));
                                        ("apiError", VBool true) ]))).

(** *** identify-plant, PlantID revision *)

Definition plantid_url : string := "https://api.plant.id/v2/identify".

(** [rawDescription.split('. ').filter((s) => s.length > 0)] *)
Definition plantid_sentences (rawDescription : string) : list string :=
  filter (fun s => (0 <? String.length s)%nat) (split ". " rawDescription).

(** About: the first two sentences. *)
Definition plantid_about (sentences : list string) : string :=
  join ". " (slice 0 2 sentences) ++ ".".

(** Explanation: the next four. *)
Definition plantid_explanation (sentences : list string) : string :=
  join ". " (slice 2 6 sentences)
  ++ (if (2 <? List.length sentences)%nat then "." else "").

(** The constants read off [topSuggestion]. *)
Definition plantid_plantDetails (topSuggestion : value) : value :=
  js_or (prop topSuggestion "plant_details") (VObj []).

Definition plantid_commonNames (topSuggestion : value) : value :=
  js_or (prop (plantid_plantDetails topSuggestion) "common_names") (VArr []).

Definition plantid_scientificName (topSuggestion : value) : value :=
  js_or (prop topSuggestion "plant_name") (VStr "Unknown").

Definition plantid_rawDescription (topSuggestion : value) : value :=
  js_or (prop (prop (plantid_plantDetails topSuggestion) "description") "value")
        (VStr "No description available").

Definition plantid_watering (topSuggestion : value) : value :=
  js_or (prop (prop (plantid_plantDetails topSuggestion) "watering") "max") (VNum 7).

Definition plantid_additionalInfo (watering : value) : list string :=
  [ "Watering: Every " ++ to_string watering ++ " days";
    "Sunlight: Moderate to bright indirect light";
    "Soil: Well-draining potting mix";
    "Growth: Moderate growth rate";
    "Native: Varies by species" ].

(** The result object, for a description [raw] that is a string. *)
Definition plantid_build (topSuggestion : value) (raw : string) : value :=
  let sentences := plantid_sentences raw in
  let about := plantid_about sentences in
  let explanation := plantid_explanation sentences in
  VObj
    [ ("commonName",
        js_or (index0 (plantid_commonNames topSuggestion)) (plantid_scientificName topSuggestion));
      ("scientificName", plantid_scientificName topSuggestion);
      ("about", VStr about);
      ("explanation", js_or (VStr explanation) (VStr about));
      ("additionalInfo", VArr (map VStr (plantid_additionalInfo (plantid_watering topSuggestion))));
      ("wateringFrequencyDays", plantid_watering topSuggestion);
      ("probability", js_or (prop topSuggestion "probability") (VNum 0)) ].

(** The normalisation of [suggestions[0]]; [rawDescription.split] throws when
    the description the provider gave is not a string. *)
Definition plantid_result (topSuggestion : value) : exn + value :=
  match plantid_rawDescription topSuggestion with
  | VStr raw => inr (plantid_build topSuggestion raw)
  | _ => inl (JsError (TypeError_message "rawDescription.split"))
  end.

(** From the provider's answer on: the most probable suggestion, normalised. *)
Definition plantid_respond (data : value) : IO Response :=
  (given <- lift (get data "suggestions") ;;
   let suggestions := js_or given (VArr []) in
   let topSuggestion := index0 suggestions in
   if negb (truthy topSuggestion) then
     ret (json_response 404 (VObj [ ("error", VStr "No plant identified") ]))
   else
     result <- lift (plantid_result topSuggestion) ;;
     ret (json_response 200 result))%io.

Definition identify_plant_plantid (w : World) (req : Request) : IO Response :=
  if req_method req =? "OPTIONS" then ret cors_preflight
  else
    try_catch
      (body <- lift (req_json req) ;;
       imageBase64 <- lift (get body "imageBase64") ;;
       if negb (truthy imageBase64) then ret image_required
       else if env_missing w "PLANTID_API_KEY" then
         ret (json_response 500 (VObj [ ("error", VStr "API key not configured") ]))
       else
         response <- fetch w (mkCall plantid_url imageBase64) ;;
         if negb (reply_ok response) then
           lift (new_Response (reply_status response)
                   (VObj [ ("error", VStr "Failed to identify plant") ]))
         else
           data <- lift (reply_json response) ;;
           plantid_respond data)%io
      (fun error =>
         ret (json_response 500 (VObj [ ("error", VStr (message_of error)) ]))).

(** *** identify-plant, first PlantID revision (a single description) *)

Definition plantid_v1_result (topSuggestion : value) : value :=
  VObj [ ("commonName",
           js_or (index0 (plantid_commonNames topSuggestion)) (plantid_scientificName topSuggestion));
         ("scientificName", plantid_scientificName topSuggestion);
         ("description", plantid_rawDescription topSuggestion);
         ("wateringFrequencyDays", plantid_watering topSuggestion);
         ("probability", js_or (prop topSuggestion "probability") (VNum 0)) ].

Definition identify_plant_plantid_v1 (w : World) (req : Request) : IO Response :=
  if req_method req =? "OPTIONS" then ret cors_preflight
  else
    try_catch
      (body <- lift (req_json req) ;;
       imageBase64 <- lift (get body "imageBase64") ;;
       if negb (truthy imageBase64) then ret image_required
       else if env_missing w "PLANTID_API_KEY" then
         ret (json_response 500 (VObj [ ("error", VStr "API key not configured") ]))
       else
         response <- fetch w (mkCall plantid_url imageBase64) ;;
         if negb (reply_ok response) then
           lift (new_Response (reply_status response)
                   (VObj [ ("error", VStr "Failed to identify plant") ]))
         else
           data <- lift (reply_json response) ;;
           given <- lift (get data "suggestions") ;;
           let suggestions := js_or given (VArr []) in
           let topSuggestion := index0 suggestions in
           if negb (truthy topSuggestion) then
             ret (json_response 404 (VObj [ ("error", VStr "No plant identified") ]))
           else ret (json_response 200 (plantid_v1_result topSuggestion)))%io
      (fun error =>
         ret (json_response 500 (VObj [ ("error", VStr (message_of error)) ]))).

(** *** verify-plant *)

(** The answer of the non-ok branch. *)
Definition verify_fallback : value :=
  VObj [ ("isPlant", VBool true); ("confidence", VNum (1 # 2)); ("fallback", VBool true) ].

(** The answer of the outer [catch]. *)
Definition verify_on_error : value :=
  VObj [ ("isPlant", VBool true); ("confidence", VNum (1 # 2)); ("error", VBool true) ].

(** [let result = { isPlant: true, confidence: 0.5 }] *)
Definition verify_default : value :=
  VObj [ ("isPlant", VBool true); ("confidence", VNum (1 # 2)) ].

(** [o.k = x] on an object. *)
Fixpoint assign_props (k : string) (x : value) (ps : list (string * value))
  : list (string * value) :=
  match ps with
  | [] => [(k, x)]
  | (k', v) :: rest => if k =? k' then (k', x) :: rest else (k', v) :: assign_props k x rest
  end.

Definition assign (k : string) (x : value) (o : value) : value :=
  match o with
  | VObj ps => VObj (assign_props k x ps)
  | _ => o
  end.

(** The keyword test of the inner [catch]. *)
Definition verify_keywords (content : string) : bool :=
  let lowerContent := toLowerCase content in
  includes "true" lowerContent || includes "plant" lowerContent
  || includes "leaf" lowerContent || includes "flower" lowerContent.

(** From the completion text to [result].  A [content] that is not a string
    makes [content.match] throw into the inner [catch], whose
    [content.toLowerCase] throws in turn, to the outer [catch]. *)
Definition verify_interpret (content : value) : exn + value :=
  match content with
  | VStr s =>
      match match_braces s with
      | Some m =>
          match JSON_parse m with
          | inr parsed => inr parsed
          | inl parseError => inr (assign "isPlant" (VBool (verify_keywords s)) verify_default)
          end
      | None => inr verify_default
      end
  | _ => inl (JsError (TypeError_message "content.toLowerCase"))
  end.

Definition verify_plant (w : World) (req : Request) : IO Response :=
  if req_method req =? "OPTIONS" then ret cors_preflight
  else
    try_catch
      (body <- lift (req_json req) ;;
       imageBase64 <- lift (get body "imageBase64") ;;
       if negb (truthy imageBase64) then ret image_required
       else if env_missing w "LOVABLE_API_KEY" then
         ret (json_response 500 (VObj [ ("error", VStr "API key not configured") ]))
       else
         response <- fetch w (mkCall verify_url imageBase64) ;;
         if negb (reply_ok response) then ret (json_response 200 verify_fallback)
         else
           data <- lift (reply_json response) ;;
           choices <- lift (get data "choices") ;;
           let content :=
             js_or (prop (prop (index0 choices) "message") "content") (VStr "") in
           result <- lift (verify_interpret content) ;;
           ret (json_response 200 result))%io
      (fun error => ret (json_response 200 verify_on_error)).

(** ** The client: PlantIdentifier.tsx *)

(** What [supabase.functions.invoke] resolves to. *)
Record Invoked : Type := mkInvoked { data : value; error : option exn }.

(** The edge functions as the client reaches them. *)
Definition Backend : Type := string -> value -> Invoked.

Inductive Outcome : Type :=
| Identified (result : value)      (* onIdentified *)
| Failed (message : string).       (* onError *)

Definition not_a_plant_message : string :=
  "Oops! This doesn't look like a plant. Please try again with a clear photo of a leaf or flower 🌿".

Definition low_confidence_message : string :=
  "I couldn't confidently recognize any plant in this photo 🌱. Try again with a clearer image.".

Definition transient_error_message : string :=
  "Failed to identify plant. Please try again.".

(** The four outcomes of the orchestrator. *)
Definition NotAPlant : Outcome := Failed not_a_plant_message.
Definition LowConfidence : Outcome := Failed low_confidence_message.
Definition TransientError : Outcome := Failed transient_error_message.
Definition Success (result : value) : Outcome := Identified result.

(** [{ ...data, imageUrl: previewUrl }] *)
Definition with_imageUrl (d : value) (previewUrl : string) : value :=
  assign "imageUrl" (VStr previewUrl) d.

(** Step 2 of [processImage], after the identification call came back. *)
Definition after_identify (r : Invoked) (previewUrl : string) : Outcome :=
  match error r with
  | Some _ => TransientError
  | None =>
      if truthy (data r) && truthy (prop (data r) "lowConfidence") then LowConfidence
      else if truthy (data r) && truthy (prop (data r) "commonName")
      then Success (with_imageUrl (data r) previewUrl)
      else LowConfidence
  end.

(** Step 1 of [processImage]: a verification error is passed over, an
    answer that is not a plant stops the run. *)
Definition verification_rejects (verify : Invoked) : bool :=
  match error verify with
  | Some _ => false
  | None => truthy (data verify) && negb (truthy (prop (data verify) "isPlant"))
  end.

(** The body both calls send. *)
Definition image_body (base64 : string) : value := VObj [ ("imageBase64", VStr base64) ].

(** [processImage]: the outcome, and the edge functions invoked, in order. *)
Definition processImage (backend : Backend) (base64 previewUrl : string)
  : Outcome * list string :=
  let verify := backend "verify-plant" (image_body base64) in
  if verification_rejects verify then (NotAPlant, [ "verify-plant" ])
  else
    let identify := backend "identify-plant" (image_body base64) in
    (after_identify identify previewUrl, [ "verify-plant"; "identify-plant" ]).

(** supabase-js: a 2xx answer is handed over as [data], anything else as
    [error] with [data] null. *)
Definition functions_invoke (r : Response) : Invoked :=
  if (200 <=? resp_status r)%Z && (resp_status r <=? 299)%Z
  then mkInvoked (resp_body r) None
  else mkInvoked VNull (Some (JsError "Edge Function returned a non-2xx status code")).

(** What Deno's [serve] sends for a handler run. *)
Definition serve (m : IO Response) : Response * list Call :=
  match run m with
  | (inr r, tr) => (r, tr)
  | (inl _, tr) => (mkResponse 500 (VStr "Internal Server Error"), tr)
  end.

(** The deployed pair of functions behind [invoke], for a given revision
    [identify] of identify-plant. *)
Definition deployed (identify : World -> Request -> IO Response) (w : World) : Backend :=
  fun name body =>
    let req := mkRequest "POST" (inr (wire body)) in
    if name =? "verify-plant" then functions_invoke (fst (serve (verify_plant w req)))
    else functions_invoke (fst (serve (identify w req))).

(** How often [name] was invoked. *)
Definition invocations (name : string) (log : list string) : nat :=
  List.length (filter (String.eqb name) log).


(** ** Runs of the edge functions *)

(** A request that passes the guards of an edge function whose key is stored
    under [key]: not the preflight, a JSON body with an image, the key set. *)
Definition passes_guards (key : string) (w : World) (req : Request) (image : value) : Prop :=
  req_method req <> "OPTIONS" /\
  (exists body, req_json req = inr body /\ nullish body = false /\
                prop body "imageBase64" = image) /\
  truthy image = true /\
  env_missing w key = false.

Definition gemini_call (w : World) (image : value) : Call :=
  mkCall (gemini_url (env_value w "GOOGLE_GEMINI_API_KEY")) image.

(** The Gemini run delivers the completion text [content]. *)
Definition gemini_run_reads (w : World) (req : Request) (image content : value) : Prop :=
  passes_guards "GOOGLE_GEMINI_API_KEY" w req image /\
  exists reply aiResponse,
    net w (gemini_call w image) = inr reply /\
    reply_ok reply = true /\
    reply_json reply = inr aiResponse /\
    nullish aiResponse = false /\
    content =
      prop (index0 (prop (prop (index0 (prop aiResponse "candidates")) "content") "parts")) "text".

(** The PlantID run delivers the provider's answer [data]. *)
Definition plantid_run_reads (w : World) (req : Request) (image data : value) : Prop :=
  passes_guards "PLANTID_API_KEY" w req image /\
  exists reply,
    net w (mkCall plantid_url image) = inr reply /\
    reply_ok reply = true /\
    reply_json reply = inr data.

(** The completion text the verifier works on, for a gateway answer [data]. *)
Definition verify_content (data : value) : value :=
  js_or (prop (prop (index0 (prop data "choices")) "message") "content") (VStr "").

(** The verifier run delivers the classifier's text [content]. *)
Definition verify_run_reads (w : World) (req : Request) (image content : value) : Prop :=
  passes_guards "LOVABLE_API_KEY" w req image /\
  exists reply data,
    net w (mkCall verify_url image) = inr reply /\
    reply_ok reply = true /\
    reply_json reply = inr data /\
    nullish data = false /\
    content = verify_content data.

(** A success answer, as the client takes it: a 2xx body that carries a
    name and is not flagged as low confidence. *)
Definition is_success (r : Response) : bool :=
  (200 <=? resp_status r)%Z && (resp_status r <=? 299)%Z
  && truthy (prop (resp_body r) "commonName")
  && negb (truthy (prop (resp_body r) "lowConfidence")).


(** The classifier call did not deliver a 2xx answer: [fetch] rejected, or
    the status is outside 200 to 299. *)
Definition upstream_failed (u : exn + HttpReply) : bool :=
  match u with
  | inl _ => true
  | inr reply => negb (reply_ok reply)
  end.

(** The four tokens of the verifier's keyword test. *)
Definition verify_tokens : list string := [ "true"; "plant"; "leaf"; "flower" ].

(** ** Properties *)

(** *** Values on the wire *)

Lemma truthy_not_nullish (v : value) : truthy v = true -> nullish v = false.
Proof. destruct v; simpl; congruence. Qed.

Lemma wire_truthy (v : value) : truthy v = true -> truthy (wire v) = true.
Proof. destruct v; simpl; auto. Qed.

Lemma wire_defined (v : value) : truthy v = true -> wire v <> VUndefined.
Proof. destruct v; simpl; congruence. Qed.

Lemma wire_js_or_defined (a b : value) :
  wire b <> VUndefined -> wire (js_or a b) <> VUndefined.
Proof.
  intros Hb. unfold js_or. destruct (truthy a) eqn:Ha; [apply wire_defined|]; assumption.
Qed.

Lemma wire_props_keep (k : string) (x : value) (rest : list (string * value)) :
  wire x <> VUndefined ->
  wire_props wire ((k, x) :: rest) = (k, wire x) :: wire_props wire rest.
Proof. intros Hx. simpl. destruct (wire x); congruence. Qed.


Lemma wire_props_all (ps : list (string * value)) :
  Forall (fun kx => wire (snd kx) <> VUndefined) ps ->
  wire_props wire ps = map (fun kx => (fst kx, wire (snd kx))) ps.
Proof.
  induction 1 as [|[k x] ps Hx _ IH]; [reflexivity|].
  simpl in Hx. rewrite (wire_props_keep k x ps Hx), IH. reflexivity.
Qed.

Lemma lookup_map_wire (k : string) (ps : list (string * value)) :
  lookup k (map (fun kx => (fst kx, wire (snd kx))) ps) = wire (lookup k ps).
Proof.
  induction ps as [|[k' x] ps IH]; [reflexivity|].
  simpl. destruct (k =? k'); [reflexivity|exact IH].
Qed.

(** On an object all of whose values survive serialisation, reading a
    property commutes with the wire. *)
Lemma prop_wire_obj (k : string) (ps : list (string * value)) :
  Forall (fun kx => wire (snd kx) <> VUndefined) ps ->
  prop (wire (VObj ps)) k = wire (lookup k ps).
Proof.
  intros H. change (wire (VObj ps)) with (VObj (wire_props wire ps)).
  simpl. rewrite (wire_props_all ps H). apply lookup_map_wire.
Qed.


(** The constructor accepts every status the handlers write as a literal. *)
Lemma literal_statuses_accepted (body : value) :
  Forall (fun status => new_Response status body = inr (json_response status body))
         [ 200; 400; 403; 404; 429; 500 ]%Z.
Proof. repeat constructor. Qed.

Lemma js_or_truthy (a b : value) : truthy b = true -> truthy (js_or a b) = true.
Proof. intros Hb. unfold js_or. destruct (truthy a) eqn:Ha; assumption. Qed.

Lemma js_or_missing (b : value) : js_or VUndefined b = b.
Proof. reflexivity. Qed.

Ltac all_defined :=
  repeat (apply Forall_cons; [cbn [snd]|]); try apply Forall_nil;
  try (apply wire_js_or_defined); try (apply wire_js_or_defined); simpl; try discriminate.

Lemma method_not_options (req : Request) :
  req_method req <> "OPTIONS" -> (req_method req =? "OPTIONS") = false.
Proof. intros H. apply String.eqb_neq. exact H. Qed.

Ltac io_unfold :=
  unfold serve, run, try_catch, bind, lift, ret, fetch, get in *.

(** *** The image guard *)

(** C9.  A request other than the CORS preflight whose JSON body has no
    [imageBase64], or an empty one, is answered by every edge function with
    status 400 and [{error: "Image data is required"}], and no provider is
    called. *)
Theorem missing_image_is_rejected :
  forall (w : World) (req : Request) (body : value),
    req_method req <> "OPTIONS" ->
    req_json req = inr body ->
    nullish body = false ->
    truthy (prop body "imageBase64") = false ->
    serve (verify_plant w req) = (image_required, []) /\
    serve (identify_plant_gemini w req) = (image_required, []) /\
    serve (identify_plant_plantid w req) = (image_required, []) /\
    serve (identify_plant_plantid_v1 w req) = (image_required, []) /\
    resp_status image_required = 400%Z /\
    resp_body image_required = VObj [ ("error", VStr "Image data is required") ].
Proof.
  intros w req body Hm Hj Hn Hi.
  apply method_not_options in Hm.
  unfold verify_plant, identify_plant_gemini, identify_plant_plantid,
    identify_plant_plantid_v1.
  rewrite Hm. io_unfold. rewrite Hj, Hn. simpl. rewrite Hi. simpl.
  repeat split; reflexivity.
Qed.

(** *** The orchestrator *)

Lemma after_identify_low_confidence (r : Response) (previewUrl : string) :
  resp_status r = 200%Z ->
  prop (resp_body r) "lowConfidence" = VBool true ->
  after_identify (functions_invoke r) previewUrl = LowConfidence.
Proof.
  intros Hs Hl. unfold functions_invoke, after_identify. rewrite Hs. simpl.
  rewrite Hl.
  destruct (resp_body r); simpl in *; try discriminate; reflexivity.
Qed.

Lemma processImage_after_verification
      (backend : Backend) (base64 previewUrl : string) :
  verification_rejects (backend "verify-plant" (image_body base64)) = false ->
  processImage backend base64 previewUrl
  = (after_identify (backend "identify-plant" (image_body base64)) previewUrl,
     [ "verify-plant"; "identify-plant" ]).
Proof. intros Hv. unfold processImage. rewrite Hv. reflexivity. Qed.

(** C3.  When the verifier answers [isPlant = false] and the answer is not a
    fallback, the orchestrator ends with NotAPlant and identify-plant is not
    invoked in that run. *)
Theorem verifier_rejection_short_circuits :
  forall (backend : Backend) (base64 previewUrl : string) (answer : value),
    backend "verify-plant" (image_body base64) = mkInvoked answer None ->
    prop answer "isPlant" = VBool false ->
    truthy (prop answer "fallback") = false ->
    fst (processImage backend base64 previewUrl) = NotAPlant /\
    invocations "identify-plant" (snd (processImage backend base64 previewUrl)) = 0%nat /\
    snd (processImage backend base64 previewUrl) = [ "verify-plant" ].
Proof.
  intros backend base64 previewUrl answer Hv Hp _.
  unfold processImage, verification_rejects. rewrite Hv. simpl. rewrite Hp.
  destruct answer; simpl in Hp; try discriminate.
  simpl. repeat split; reflexivity.
Qed.

(** *** The Gemini path *)

Lemma gemini_reaches_interpret
      (w : World) (req : Request) (image content : value) :
  gemini_run_reads w req image content ->
  serve (identify_plant_gemini w req)
  = if truthy content then
      match gemini_interpret content [ gemini_call w image ] with
      | (inr r, tr) => (r, tr)
      | (inl e, tr) =>
          (json_response 500 (VObj [ ("error", VStr (message_of e)); ("apiError", VBool true) ]), tr)
      end
    else (gemini_no_content, [ gemini_call w image ]).
Proof.
  intros [[Hm [[body [Hj [Hn Hi]]] [Ht Hk]]] [reply [ai [Hnet [Hok [Hrj [Hna Hc]]]]]]].
  apply method_not_options in Hm.
  unfold identify_plant_gemini. rewrite Hm. io_unfold.
  rewrite Hj, Hn. simpl. rewrite Hi, Ht. simpl. rewrite Hk.
  unfold gemini_call in Hnet. rewrite Hnet, Hok. simpl. rewrite Hrj, Hna. simpl.
  rewrite <- Hc. destruct (truthy content); simpl; [|reflexivity].
  destruct (gemini_interpret content _) as [[e|r] tr]; reflexivity.
Qed.

(** C4.  Completion text that holds no brace-delimited part, or whose
    brace-delimited part [JSON.parse] rejects: the endpoint answers 200 with
    [lowConfidence: true], and a run of the orchestrator that gets this
    answer ends in LowConfidence, not in TransientError. *)
Theorem gemini_unparsable_is_low_confidence :
  forall (w : World) (req : Request) (image : value) (text : string)
         (backend : Backend) (base64 previewUrl : string),
    gemini_run_reads w req image (VStr text) ->
    (forall m, match_braces text = Some m -> exists e, JSON_parse m = inl e) ->
    verification_rejects (backend "verify-plant" (image_body base64)) = false ->
    backend "identify-plant" (image_body base64)
    = functions_invoke (fst (serve (identify_plant_gemini w req))) ->
    let answer := fst (serve (identify_plant_gemini w req)) in
    resp_status answer = 200%Z /\
    prop (resp_body answer) "lowConfidence" = VBool true /\
    fst (processImage backend base64 previewUrl) = LowConfidence /\
    LowConfidence <> TransientError.
Proof.
  intros w req image text backend base64 previewUrl Hrun Hparse Hv Hi answer.
  assert (Hfail : exists e, gemini_parse (VStr text) = inl e).
  { unfold gemini_parse. destruct (match_braces text) as [m|] eqn:Hm.
    - destruct (Hparse m eq_refl) as [e He]. exists e. exact He.
    - eexists. reflexivity. }
  destruct Hfail as [e He].
  assert (Ha : answer = gemini_parse_failure \/ answer = gemini_no_content).
  { unfold answer. rewrite (gemini_reaches_interpret w req image (VStr text) Hrun).
    destruct (truthy (VStr text)); [left|right; reflexivity].
    unfold gemini_interpret. rewrite He. reflexivity. }
  rewrite (processImage_after_verification backend base64 previewUrl Hv), Hi.
  fold answer.
  destruct Ha as [Ha|Ha]; rewrite Ha; repeat split; try reflexivity; discriminate.
Qed.

Lemma gemini_result_defined (plantData : value) :
  Forall (fun kx => wire (snd kx) <> VUndefined)
         [ ("commonName", js_or (prop plantData "commonName") (VStr "Unknown Plant"));
           ("scientificName", js_or (prop plantData "scientificName") (VStr "Species unknown"));
           ("about", js_or (prop plantData "about") (VStr "A beautiful plant species."));
           ("explanation",
             js_or (js_or (prop plantData "explanation") (prop plantData "about"))
                   (VStr "No additional details available."));
           ("additionalInfo", VArr (map VStr (gemini_additionalInfo plantData)));
           ("wateringFrequencyDays", js_or (prop plantData "wateringFrequencyDays") (VNum 7));
           ("probability", js_or (prop plantData "confidence") (VNum (4 # 5))) ].
Proof. all_defined. Qed.

(** Reading a field of the Gemini result after the wire. *)
Lemma gemini_result_field (plantData : value) (k : string) :
  prop (wire (gemini_result plantData)) k = wire (prop (gemini_result plantData) k).
Proof. unfold gemini_result. apply prop_wire_obj, gemini_result_defined. Qed.

Lemma gemini_low_confidence_flag (plantData : value) :
  prop (wire (gemini_low_confidence_body plantData)) "lowConfidence" = VBool true.
Proof.
  unfold gemini_low_confidence_body. rewrite prop_wire_obj; [reflexivity|all_defined].
Qed.

Lemma gemini_result_is_success (plantData : value) :
  is_success (json_response 200 (gemini_result plantData)) = true.
Proof.
  unfold is_success, json_response. cbn [resp_status resp_body].
  rewrite !gemini_result_field. simpl.
  rewrite wire_truthy; [reflexivity|]. apply js_or_truthy. reflexivity.
Qed.

Ltac not_success :=
  let H := fresh in
  intros H; exfalso; revert H; unfold is_success; simpl;
  rewrite ?andb_false_r; discriminate.




(** *** The PlantID path *)

Lemma plantid_build_defined (topSuggestion : value) (raw : string) :
  Forall (fun kx => wire (snd kx) <> VUndefined)
    [ ("commonName",
        js_or (index0 (plantid_commonNames topSuggestion)) (plantid_scientificName topSuggestion));
      ("scientificName", plantid_scientificName topSuggestion);
      ("about", VStr (plantid_about (plantid_sentences raw)));
      ("explanation",
        js_or (VStr (plantid_explanation (plantid_sentences raw)))
              (VStr (plantid_about (plantid_sentences raw))));
      ("additionalInfo", VArr (map VStr (plantid_additionalInfo (plantid_watering topSuggestion))));
      ("wateringFrequencyDays", plantid_watering topSuggestion);
      ("probability", js_or (prop topSuggestion "probability") (VNum 0)) ].
Proof.
  unfold plantid_scientificName, plantid_watering. all_defined.
Qed.

Lemma plantid_build_field (topSuggestion : value) (raw k : string) :
  prop (wire (plantid_build topSuggestion raw)) k
  = wire (prop (plantid_build topSuggestion raw) k).
Proof. unfold plantid_build. apply prop_wire_obj, plantid_build_defined. Qed.


(** No answer of the PlantID revision is flagged as low confidence. *)
Lemma plantid_never_flags_low_confidence (w : World) (req : Request) :
  prop (resp_body (fst (serve (identify_plant_plantid w req)))) "lowConfidence" = VUndefined.
Proof.
  unfold identify_plant_plantid.
  destruct (req_method req =? "OPTIONS"); [reflexivity|].
  io_unfold.
  destruct (req_json req) as [e|body]; [reflexivity|].
  destruct (nullish body); [reflexivity|]. simpl.
  destruct (truthy (prop body "imageBase64")); [|reflexivity]. simpl.
  destruct (env_missing w "PLANTID_API_KEY"); [reflexivity|].
  destruct (net w _) as [e|reply]; [reflexivity|].
  destruct (reply_ok reply); simpl;
    [|unfold new_Response; destruct (status_refused _); reflexivity].
  destruct (reply_json reply) as [e|answer]; [reflexivity|].
  unfold plantid_respond. io_unfold.
  destruct (nullish answer); [reflexivity|]. simpl.
  destruct (truthy (index0 _)); [|reflexivity]. simpl.
  unfold plantid_result.
  destruct (plantid_rawDescription _); try reflexivity.
  unfold json_response. cbn [fst resp_body].
  rewrite plantid_build_field. reflexivity.
Qed.




(** *** The confidence gate of the Gemini path *)

Lemma below_half (p : Q) : (p < 1 # 2)%Q -> Qlt_bool p (1 # 2) = true.
Proof.
  intros Hp. unfold Qlt_bool. apply negb_true_iff.
  destruct (Qle_bool (1 # 2) p) eqn:Hle; [|reflexivity].
  apply Qle_bool_iff in Hle. exfalso. exact (Qlt_not_le _ _ Hp Hle).
Qed.

Lemma gemini_gate (plantData : value) (p : Q) :
  prop (gemini_result plantData) "probability" = VNum p ->
  (p < 1 # 2)%Q ->
  gemini_low_confidence plantData = true.
Proof.
  intros Hprob Hp. unfold gemini_low_confidence.
  change (prop (gemini_result plantData) "probability")
    with (js_or (prop plantData "confidence") (VNum (4 # 5))) in Hprob.
  unfold js_or in Hprob. destruct (truthy (prop plantData "confidence")).
  - rewrite Hprob. unfold lt_number. simpl. rewrite (below_half p Hp).
    apply orb_true_r.
  - injection Hprob as <-. exfalso. revert Hp. unfold Qlt. simpl. lia.
Qed.

(** On the Gemini path a candidate whose probability is below 0.5 is
    answered with [lowConfidence: true], and the run of the orchestrator ends
    in LowConfidence. *)
Lemma gemini_below_threshold_is_low_confidence
      (w : World) (req : Request) (image plantData : value) (text : string) (p : Q)
      (backend : Backend) (base64 previewUrl : string) :
  gemini_run_reads w req image (VStr text) ->
  gemini_parse (VStr text) = inr plantData ->
  nullish plantData = false ->
  prop (gemini_result plantData) "probability" = VNum p ->
  (p < 1 # 2)%Q ->
  verification_rejects (backend "verify-plant" (image_body base64)) = false ->
  backend "identify-plant" (image_body base64)
  = functions_invoke (fst (serve (identify_plant_gemini w req))) ->
  fst (serve (identify_plant_gemini w req))
  = json_response 200 (gemini_low_confidence_body plantData) /\
  fst (processImage backend base64 previewUrl) = LowConfidence.
Proof.
  intros Hrun Hparse Hn Hprob Hp Hv Hi.
  assert (Ht : truthy (VStr text) = true).
  { destruct text; [|reflexivity]. discriminate Hparse. }
  pose proof (gemini_gate plantData p Hprob Hp) as Hlow.
  assert (Ha : fst (serve (identify_plant_gemini w req))
               = json_response 200 (gemini_low_confidence_body plantData)).
  { rewrite (gemini_reaches_interpret w req image (VStr text) Hrun), Ht.
    unfold gemini_interpret. rewrite Hparse. io_unfold. rewrite Hn.
    unfold gemini_low_confidence in Hlow. simpl. rewrite Hlow. reflexivity. }
  split; [exact Ha|].
  rewrite (processImage_after_verification backend base64 previewUrl Hv), Hi, Ha.
  apply after_identify_low_confidence; [reflexivity|].
  apply gemini_low_confidence_flag.
Qed.

(** *** The defaults of the normaliser *)

Lemma prop_details_default (v : value) (k : string) :
  prop (js_or v (VObj [])) k = prop v k.
Proof.
  unfold js_or. destruct v as [| |b|n|s|l|ps]; simpl; try reflexivity.
  - destruct b; reflexivity.
  - destruct (negb (Qeq_bool n 0)); reflexivity.
  - destruct (negb (s =? "")); reflexivity.
Qed.

Lemma prop_present (k : string) (ps : list (string * value)) :
  Forall (fun kx => wire (snd kx) <> VUndefined) ps ->
  In k (map fst ps) ->
  prop (wire (VObj ps)) k <> VUndefined.
Proof.
  intros HF Hk. rewrite (prop_wire_obj k ps HF).
  induction HF as [|[k' x] ps Hx HF IH]; [contradiction|].
  simpl. destruct (k =? k') eqn:E; [exact Hx|].
  apply IH. destruct Hk as [Hk|Hk]; [|exact Hk].
  simpl in Hk. subst k'. rewrite String.eqb_refl in E. discriminate.
Qed.

Ltac use_missing :=
  repeat match goal with
         | H : prop _ _ = VUndefined |- _ => rewrite H; clear H
         end;
  try reflexivity.

(** C5, as the code has it.  Every field of a result is present on the wire,
    and a field the provider left out takes the literal of its own path.
    Gemini: "Unknown Plant", "Species unknown", "A beautiful plant species."
    for [about], the given [about] (else "No additional details available.")
    for [explanation], 7 and 0.8.  PlantID: "Unknown" for the scientific
    name, the scientific name for the common name, "No description
    available." for [about] and [explanation], 7 and 0. *)
Theorem missing_fields_take_defaults :
  forall (plantData topSuggestion : value) (raw : string),
    let g := wire (gemini_result plantData) in
    let r := wire (plantid_build topSuggestion raw) in
    let details := prop topSuggestion "plant_details" in
    ((prop plantData "commonName" = VUndefined ->
        prop g "commonName" = VStr "Unknown Plant") /\
     (prop plantData "scientificName" = VUndefined ->
        prop g "scientificName" = VStr "Species unknown") /\
     (prop plantData "about" = VUndefined ->
        prop g "about" = VStr "A beautiful plant species.") /\
     (prop plantData "explanation" = VUndefined ->
        truthy (prop plantData "about") = true ->
        prop g "explanation" = prop g "about") /\
     (prop plantData "explanation" = VUndefined ->
        prop plantData "about" = VUndefined ->
        prop g "explanation" = VStr "No additional details available.") /\
     (prop plantData "wateringFrequencyDays" = VUndefined ->
        prop g "wateringFrequencyDays" = VNum 7) /\
     (prop plantData "confidence" = VUndefined ->
        prop g "probability" = VNum (4 # 5))) /\
    ((prop topSuggestion "plant_name" = VUndefined ->
        prop r "scientificName" = VStr "Unknown") /\
     (prop details "common_names" = VUndefined ->
        prop r "commonName" = prop r "scientificName") /\
     (prop (prop details "description") "value" = VUndefined ->
        let d := wire (plantid_build topSuggestion "No description available") in
        plantid_result topSuggestion
        = inr (plantid_build topSuggestion "No description available") /\
        prop d "about" = VStr "No description available." /\
        prop d "explanation" = VStr "No description available.") /\
     (prop (prop details "watering") "max" = VUndefined ->
        prop r "wateringFrequencyDays" = VNum 7) /\
     (prop topSuggestion "probability" = VUndefined ->
        prop r "probability" = VNum 0)) /\
    (forall k, In k [ "commonName"; "scientificName"; "about"; "explanation";
                      "additionalInfo"; "wateringFrequencyDays"; "probability" ] ->
       prop g k <> VUndefined /\ prop r k <> VUndefined).
Proof.
  intros plantData top raw g r details. split; [|split].
  - unfold g. rewrite !gemini_result_field. simpl.
    repeat split; intros; use_missing.
    unfold js_or. simpl.
    match goal with Ha : truthy _ = true |- _ => rewrite Ha end. reflexivity.
  - unfold r, details. rewrite !plantid_build_field. simpl.
    unfold plantid_result, plantid_rawDescription, plantid_commonNames,
      plantid_scientificName, plantid_watering, plantid_plantDetails.
    rewrite !prop_details_default.
    repeat split; intros; rewrite ?plantid_build_field; use_missing.
  - intros k Hk. split.
    + unfold g, gemini_result. apply prop_present; [apply gemini_result_defined|exact Hk].
    + unfold r, plantid_build. apply prop_present; [apply plantid_build_defined|exact Hk].
Qed.


(** C7.  The Rosa scenario: the PlantID normaliser answers 200 with common
    name "Rose", scientific name "Rosa", the first two sentences as [about],
    watering every 5 days and probability 0.9. *)
Theorem rosa_scenario :
  exists result,
    run (plantid_respond rosa_response) = (inr (mkResponse 200 result), []) /\
    prop result "commonName" = VStr "Rose" /\
    prop result "scientificName" = VStr "Rosa" /\
    prop result "about" = VStr "A flowering shrub. It has thorns." /\
    prop result "wateringFrequencyDays" = VNum 5 /\
    prop result "probability" = VNum (9 # 10).
Proof.
  eexists. split; [reflexivity|].
  repeat split; reflexivity.
Qed.

(** *** The verifier *)

Lemma verify_reaches_call (w : World) (req : Request) (image : value) :
  passes_guards "LOVABLE_API_KEY" w req image ->
  serve (verify_plant w req)
  = match net w (mkCall verify_url image) with
    | inl e => (json_response 200 verify_on_error, [ mkCall verify_url image ])
    | inr reply =>
        if reply_ok reply then
          match reply_json reply with
          | inl e => (json_response 200 verify_on_error, [ mkCall verify_url image ])
          | inr data =>
              if nullish data
              then (json_response 200 verify_on_error, [ mkCall verify_url image ])
              else
                match verify_interpret (verify_content data) with
                | inl e => (json_response 200 verify_on_error, [ mkCall verify_url image ])
                | inr result => (json_response 200 result, [ mkCall verify_url image ])
                end
          end
        else (json_response 200 verify_fallback, [ mkCall verify_url image ])
    end.
Proof.
  intros [Hm [[body [Hj [Hn Hi]]] [Ht Hk]]].
  apply method_not_options in Hm.
  unfold verify_plant. rewrite Hm. io_unfold.
  rewrite Hj, Hn. simpl. rewrite Hi, Ht. simpl. rewrite Hk.
  destruct (net w _) as [e|reply]; [reflexivity|].
  destruct (reply_ok reply); simpl; [|reflexivity].
  destruct (reply_json reply) as [e|answer]; [reflexivity|].
  destruct (nullish answer); simpl; [reflexivity|].
  unfold verify_content.
  destruct (verify_interpret _) as [e|result]; reflexivity.
Qed.

(** C2, as the code has it.  When the classifier call fails the verifier
    still answers 200 with [isPlant: true] and [confidence: 0.5], and the
    caller sees no error; the third field is [fallback: true] after a non-2xx
    status and [error: true] after a transport failure. *)
Theorem verifier_fails_open :
  forall (w : World) (req : Request) (image : value),
    passes_guards "LOVABLE_API_KEY" w req image ->
    upstream_failed (net w (mkCall verify_url image)) = true ->
    let answer := fst (serve (verify_plant w req)) in
    resp_status answer = 200%Z /\
    resp_body answer
    = VObj [ ("isPlant", VBool true); ("confidence", VNum (1 # 2));
             (match net w (mkCall verify_url image) with
              | inl _ => "error"
              | inr _ => "fallback"
              end, VBool true) ] /\
    error (functions_invoke answer) = None /\
    snd (serve (verify_plant w req)) = [ mkCall verify_url image ].
Proof.
  intros w req image Hpass Hfail answer. unfold answer.
  rewrite (verify_reaches_call w req image Hpass).
  destruct (net w _) as [e|reply]; simpl in Hfail.
  - repeat split; reflexivity.
  - apply negb_true_iff in Hfail. rewrite Hfail. repeat split; reflexivity.
Qed.

Lemma prefix_spec (t s : string) :
  prefix t s = true <-> exists b, s = t ++ b.
Proof.
  revert s. induction t as [|c t IH]; intros s.
  - destruct s; simpl; (split; [intros _; eexists; reflexivity|reflexivity]).
  - destruct s as [|d s]; simpl; [split; [discriminate|intros [b Hb]; discriminate]|].
    destruct (ascii_dec c d) as [<-|Hcd].
    + rewrite IH. split; intros [b Hb]; exists b; [rewrite Hb; reflexivity|].
      injection Hb as Hb. exact Hb.
    + split; [discriminate|]. intros [b Hb]. injection Hb as Hc _. congruence.
Qed.

(** [includes] is the substring test. *)
Lemma includes_spec (t s : string) :
  includes t s = true <-> exists a b, s = a ++ t ++ b.
Proof.
  induction s as [|c s IH].
  - cbn [includes]. rewrite orb_false_r, prefix_spec. split.
    + intros [b Hb]. exists "", b. exact Hb.
    + intros [a [b Hab]]. destruct a; [exists b; exact Hab|discriminate].
  - cbn [includes]. rewrite orb_true_iff, prefix_spec, IH. split.
    + intros [[b Hb]|[a [b Hab]]].
      * exists "", b. exact Hb.
      * exists (String c a), b. rewrite Hab. reflexivity.
    + intros [a [b Hab]]. destruct a as [|d a].
      * left. exists b. exact Hab.
      * right. injection Hab as _ Hab. exists a, b. exact Hab.
Qed.

Lemma lower_ascii_idempotent (c : ascii) : lower_ascii (lower_ascii c) = lower_ascii c.
Proof. destruct c as [[] [] [] [] [] [] [] []]; reflexivity. Qed.

Lemma toLowerCase_idempotent (s : string) : toLowerCase (toLowerCase s) = toLowerCase s.
Proof.
  induction s as [|c s IH]; [reflexivity|].
  simpl. rewrite lower_ascii_idempotent, IH. reflexivity.
Qed.

Lemma verify_keywords_spec (text : string) :
  verify_keywords text = true <->
  exists token, In token verify_tokens /\ exists a b, toLowerCase text = a ++ token ++ b.
Proof.
  unfold verify_keywords, verify_tokens. cbv zeta.
  rewrite !orb_true_iff, !includes_spec. split.
  - intros [[[H|H]|H]|H]; eexists; (split; [|exact H]); simpl; auto.
  - intros [token [Hin H]]. simpl in Hin.
    destruct Hin as [<-|[<-|[<-|[<-|[]]]]]; auto.
Qed.

(** C8, as the code has it.  When the classifier's text has no part that
    parses as JSON, the verifier answers [confidence: 0.5] and an [isPlant]
    that is the keyword test (one of "true", "plant", "leaf", "flower" in the
    lower-cased text) if a brace-delimited part was found and rejected, and
    [true] if the text has no brace-delimited part at all. *)
Theorem verifier_keyword_fallback :
  forall (w : World) (req : Request) (image : value) (text : string),
    verify_run_reads w req image (VStr text) ->
    (forall m, match_braces text = Some m -> exists e, JSON_parse m = inl e) ->
    resp_body (fst (serve (verify_plant w req)))
    = VObj [ ("isPlant",
               VBool (match match_braces text with
                      | Some _ => verify_keywords text
                      | None => true
                      end));
             ("confidence", VNum (1 # 2)) ] /\
    resp_status (fst (serve (verify_plant w req))) = 200%Z /\
    (verify_keywords text = true <->
     exists token, In token verify_tokens /\ exists a b, toLowerCase text = a ++ token ++ b) /\
    verify_keywords (toLowerCase text) = verify_keywords text.
Proof.
  intros w req image text [Hpass [reply [answer [Hnet [Hok [Hrj [Hn Hc]]]]]]] Hparse.
  rewrite (verify_reaches_call w req image Hpass), Hnet, Hok, Hrj, Hn, <- Hc.
  unfold verify_interpret.
  split; [|split; [|split]].
  - destruct (match_braces text) as [m|] eqn:Hm; [|reflexivity].
    destruct (Hparse m eq_refl) as [e He]. rewrite He. reflexivity.
  - destruct (match_braces text) as [m|] eqn:Hm; [|reflexivity].
    destruct (Hparse m eq_refl) as [e He]. rewrite He. reflexivity.
  - apply verify_keywords_spec.
  - unfold verify_keywords. cbv zeta. rewrite toLowerCase_idempotent. reflexivity.
Qed.

(** *** Splitting and joining *)

Lemma append_empty_r (s : string) : s ++ "" = s.
Proof. induction s as [|c s IH]; simpl; [|rewrite IH]; reflexivity. Qed.

Lemma append_assoc (a b c : string) : (a ++ b) ++ c = a ++ b ++ c.
Proof. induction a as [|x a IH]; simpl; [|rewrite IH]; reflexivity. Qed.

Lemma drop_append (a b : string) : drop (String.length a) (a ++ b) = b.
Proof. induction a as [|x a IH]; simpl; [destruct b|]; auto. Qed.

Lemma length_append (a b : string) :
  String.length (a ++ b) = (String.length a + String.length b)%nat.
Proof. induction a as [|x a IH]; simpl; [|rewrite IH]; reflexivity. Qed.

Lemma split_go_nonempty (sep : string) (k : nat) (cur s : string) :
  split_go sep k cur s <> [].
Proof.
  revert k cur. induction s as [|c s IH]; intros k cur; cbn [split_go]; [congruence|].
  destruct k; [|apply IH].
  destruct (prefix sep (String c s)); [congruence|apply IH].
Qed.

Lemma join_cons (sep x : string) (l : list string) :
  l <> [] -> join sep (x :: l) = x ++ sep ++ join sep l.
Proof. destruct l; [congruence|reflexivity]. Qed.

Lemma split_go_join (sep : string) (s : string) :
  sep <> "" ->
  forall (k : nat) (cur : string),
    (k <= String.length s)%nat ->
    join sep (split_go sep k cur s) = cur ++ drop k s.
Proof.
  intros Hsep. induction s as [|c s IH]; intros k cur Hk.
  - simpl in Hk. assert (k = 0)%nat as -> by lia.
    simpl. symmetry. apply append_empty_r.
  - destruct k as [|k].
    + cbn [split_go drop].
      destruct (prefix sep (String c s)) eqn:Hp.
      * rewrite join_cons by apply split_go_nonempty.
        apply prefix_spec in Hp. destruct Hp as [b Hb].
        destruct sep as [|c0 sep']; [congruence|].
        simpl in Hb. injection Hb as -> ->.
        replace (String.length (String c0 sep') - 1)%nat with (String.length sep')
          by (simpl; lia).
        rewrite IH by (rewrite length_append; lia).
        rewrite drop_append. reflexivity.
      * rewrite IH by lia. cbn [drop]. rewrite append_assoc. reflexivity.
    + cbn [split_go drop]. apply IH. simpl in Hk. lia.
Qed.

(** X7.  Joining the pieces of a split with the separator gives the text
    back. *)
Theorem split_join_round_trip :
  forall (sep s : string), sep <> "" -> join sep (split sep s) = s.
Proof.
  intros sep s Hsep. unfold split.
  rewrite (split_go_join sep s Hsep 0 "" (Nat.le_0_l _)). reflexivity.
Qed.

Lemma prefix_append (t b r : string) : prefix t b = true -> prefix t (b ++ r) = true.
Proof.
  rewrite !prefix_spec. intros [x ->]. exists (x ++ r). apply append_assoc.
Qed.

Lemma includes_false (t s : string) :
  (forall a b, s = a ++ b -> prefix t b = false) -> includes t s = false.
Proof.
  induction s as [|c s IH]; intros H; cbn [includes].
  - rewrite (H "" "" eq_refl). reflexivity.
  - rewrite (H "" (String c s) eq_refl). simpl. apply IH.
    intros a b Hab. apply (H (String c a) b). rewrite Hab. reflexivity.
Qed.

Lemma clear_of_includes (sep cur rest : string) :
  sep <> "" -> clear_of sep cur rest -> includes sep cur = false.
Proof.
  intros Hsep H. apply includes_false. intros a b Hab.
  destruct b as [|x b].
  - destruct sep; [congruence|reflexivity].
  - destruct (prefix sep (String x b)) eqn:Hp; [|reflexivity].
    rewrite <- (H a (String x b) Hab ltac:(discriminate)).
    symmetry. apply prefix_append, Hp.
Qed.

Lemma suffix_of_snoc (cur a b : string) (c : ascii) :
  cur ++ String c "" = a ++ b -> b <> "" ->
  exists b', b = b' ++ String c "" /\ cur = a ++ b'.
Proof.
  revert cur. induction a as [|x a IH]; intros cur H Hb.
  - simpl in H. subst b. exists cur. split; reflexivity.
  - destruct cur as [|y cur].
    + simpl in H. injection H as _ H. destruct a; [|discriminate H].
      simpl in H. congruence.
    + simpl in H. injection H as -> H.
      destruct (IH cur H Hb) as [b' [-> ->]]. exists b'. split; reflexivity.
Qed.

Lemma split_go_pieces (sep : string) (s : string) :
  sep <> "" ->
  forall (k : nat) (cur : string),
    (k = 0%nat \/ cur = "") ->
    clear_of sep cur (drop k s) ->
    Forall (fun piece => includes sep piece = false) (split_go sep k cur s).
Proof.
  intros Hsep. induction s as [|c s IH]; intros k cur Hk Hclear.
  - cbn [split_go]. constructor; [|constructor].
    apply (clear_of_includes sep cur (drop k "") Hsep Hclear).
  - destruct k as [|k].
    + cbn [split_go]. cbn [drop] in Hclear.
      destruct (prefix sep (String c s)) eqn:Hp.
      * constructor; [apply (clear_of_includes sep cur _ Hsep Hclear)|].
        apply IH; [right; reflexivity|].
        intros a b Hab Hb. destruct a; destruct b; simpl in Hab; congruence.
      * apply IH; [left; reflexivity|]. cbn [drop].
        intros a b Hab Hb.
        destruct (suffix_of_snoc cur a b c Hab Hb) as [b' [-> ->]].
        rewrite append_assoc. cbn [append].
        destruct b' as [|y b']; [exact Hp|].
        apply (Hclear a (String y b') eq_refl). discriminate.
    + destruct Hk as [Hk | ->]; [discriminate|].
      cbn [split_go]. apply IH; [right; reflexivity|].
      intros a b Hab Hb. destruct a; destruct b; simpl in Hab; congruence.
Qed.

(** X8.  No piece of a split on ". " holds a ". ", and the sentences the
    PlantID normaliser keeps are non-empty as well. *)
Theorem sentences_hold_no_separator :
  forall (raw : string),
    Forall (fun piece => includes ". " piece = false) (split ". " raw) /\
    Forall (fun sentence => sentence <> "" /\ includes ". " sentence = false)
           (plantid_sentences raw).
Proof.
  intros raw.
  assert (H : Forall (fun piece => includes ". " piece = false) (split ". " raw)).
  { unfold split. apply (split_go_pieces ". " raw ltac:(discriminate) 0 "").
    - left; reflexivity.
    - intros a b Hab Hb. destruct a; destruct b; simpl in Hab; congruence. }
  split; [exact H|].
  unfold plantid_sentences. apply Forall_forall. intros x Hx.
  apply filter_In in Hx. destruct Hx as [Hin Hlen]. split.
  - destruct x; [discriminate Hlen|discriminate].
  - rewrite Forall_forall in H. apply H, Hin.
Qed.


(** *** The sentences of a description *)

Lemma append_dot_not_empty (a : string) : a ++ "." <> "".
Proof. destruct a; discriminate. Qed.

Lemma slice_beyond {A : Type} (a b : nat) (l : list A) :
  (List.length l <= a)%nat -> slice a b l = [].
Proof.
  intros H. unfold slice. rewrite skipn_all2 by exact H. apply firstn_nil.
Qed.

(** X9.  The [about] of a PlantID result always ends in a period, so neither
    [about] nor [explanation] is ever empty; a description of at most two
    sentences has its [about] as [explanation] too. *)
Theorem about_and_explanation_are_never_empty :
  forall (topSuggestion : value) (raw : string),
    let sentences := plantid_sentences raw in
    let r := plantid_build topSuggestion raw in
    prop r "about" = VStr (join ". " (slice 0 2 sentences) ++ ".") /\
    prop r "explanation"
    = (if (2 <? List.length sentences)%nat
       then VStr (join ". " (slice 2 6 sentences) ++ ".")
       else prop r "about") /\
    truthy (prop r "about") = true /\
    truthy (prop r "explanation") = true.
Proof.
  intros top raw sentences r.
  assert (Hne : forall a, truthy (VStr (a ++ ".")) = true).
  { intros a. simpl. apply negb_true_iff, String.eqb_neq, append_dot_not_empty. }
  assert (Ha : prop r "about" = VStr (join ". " (slice 0 2 sentences) ++ "."))
    by reflexivity.
  assert (He : prop r "explanation"
               = (if (2 <? List.length sentences)%nat
                  then VStr (join ". " (slice 2 6 sentences) ++ ".")
                  else prop r "about")).
  { rewrite Ha.
    change (prop r "explanation")
      with (js_or (VStr (plantid_explanation sentences)) (VStr (plantid_about sentences))).
    unfold plantid_explanation, plantid_about.
    destruct (Nat.ltb_spec 2 (List.length sentences)) as [Hlt|Hge].
    - unfold js_or. rewrite Hne. reflexivity.
    - rewrite (slice_beyond 2 6 sentences Hge). reflexivity. }
  split; [exact Ha|]. split; [exact He|].
  split; [rewrite Ha; apply Hne|].
  rewrite He. destruct (2 <? List.length sentences)%nat; [apply Hne|].
  rewrite Ha. apply Hne.
Qed.

(** *** The brace match *)

Lemma from_first_open_spec (s rest : string) :
  from_first_open s = Some rest <->
  exists pre, s = pre ++ "{" ++ rest /\ has_char "{" pre = false.
Proof.
  revert rest. induction s as [|c s IH]; intros rest; cbn [from_first_open].
  - split; [discriminate|]. intros [pre [H _]]. destruct pre; discriminate H.
  - destruct (Ascii.eqb_spec c "{") as [->|Hc].
    + split.
      * intros H. injection H as ->. exists "". split; reflexivity.
      * intros [pre [H Hpre]]. destruct pre as [|x pre].
        -- simpl in H. injection H as ->. reflexivity.
        -- simpl in H. injection H as Hx _. subst x. simpl in Hpre. discriminate.
    + rewrite IH. split.
      * intros [pre [-> Hpre]]. exists (String c pre). split; [reflexivity|].
        cbn [has_char]. rewrite Hpre, orb_false_r.
        apply Ascii.eqb_neq. congruence.
      * intros [pre [H Hpre]]. destruct pre as [|x pre].
        -- simpl in H. injection H as Hx _. contradiction.
        -- simpl in H. injection H as Hx Hs. subst x s.
           exists pre. split; [reflexivity|].
           cbn [has_char] in Hpre. apply orb_false_iff in Hpre. apply Hpre.
Qed.

Lemma upto_last_close_none (r : string) :
  upto_last_close r = None <-> has_char "}" r = false.
Proof.
  induction r as [|c r IH]; cbn [upto_last_close has_char]; [split; reflexivity|].
  rewrite (Ascii.eqb_sym "}" c).
  destruct (upto_last_close r) as [m|].
  - split; [discriminate|]. intros H. apply orb_false_iff in H.
    destruct H as [_ H]. apply IH in H. discriminate.
  - destruct (c =? "}")%char; simpl.
    + split; discriminate.
    + split; intros _; [apply IH|]; reflexivity.
Qed.

Lemma upto_last_close_spec (r m : string) :
  upto_last_close r = Some m <->
  exists body post, r = body ++ "}" ++ post /\ has_char "}" post = false /\ m = body ++ "}".
Proof.
  split.
  - revert m. induction r as [|c r IH]; intros m; cbn [upto_last_close]; [discriminate|].
    destruct (upto_last_close r) as [m'|] eqn:Hr.
    + intros H. injection H as <-.
      destruct (IH m' eq_refl) as [body [post [-> [Hpost ->]]]].
      exists (String c body), post. repeat split; assumption.
    + destruct (Ascii.eqb_spec c "}") as [->|Hc]; [|discriminate].
      intros H. injection H as <-. exists "", r. repeat split.
      apply upto_last_close_none, Hr.
  - intros [body [post [-> [Hpost ->]]]].
    induction body as [|x body IH].
    + apply upto_last_close_none in Hpost. simpl. rewrite Hpost. reflexivity.
    + simpl in IH |- *. rewrite IH. reflexivity.
Qed.

(** X10.  The brace match is the part of the text from its first opening
    brace to its last closing brace, and there is a match exactly when some
    closing brace follows the first opening one. *)
Theorem match_braces_spec :
  forall (s m : string),
    match_braces s = Some m <->
    exists pre body post,
      s = pre ++ "{" ++ body ++ "}" ++ post /\
      has_char "{" pre = false /\
      has_char "}" post = false /\
      m = "{" ++ body ++ "}".
Proof.
  intros s m. unfold match_braces. split.
  - destruct (from_first_open s) as [rest|] eqn:Hopen; [|discriminate].
    destruct (upto_last_close rest) as [m0|] eqn:Hclose; [|discriminate].
    intros H. injection H as <-.
    apply from_first_open_spec in Hopen. destruct Hopen as [pre [-> Hpre]].
    apply upto_last_close_spec in Hclose.
    destruct Hclose as [body [post [-> [Hpost ->]]]].
    exists pre, body, post. repeat split; assumption.
  - intros [pre [body [post [-> [Hpre [Hpost ->]]]]]].
    assert (Hopen : from_first_open (pre ++ "{" ++ body ++ "}" ++ post)
                    = Some (body ++ "}" ++ post)).
    { apply from_first_open_spec. exists pre. split; [reflexivity|exact Hpre]. }
    assert (Hclose : upto_last_close (body ++ "}" ++ post) = Some (body ++ "}")).
    { apply upto_last_close_spec. exists body, post. repeat split. exact Hpost. }
    rewrite Hopen, Hclose. reflexivity.
Qed.

Lemma match_braces_fenced (pre body post : string) :
  has_char "{" pre = false ->
  has_char "}" post = false ->
  match_braces (pre ++ ("{" ++ body ++ "}") ++ post) = Some ("{" ++ body ++ "}").
Proof.
  intros Hpre Hpost. unfold match_braces.
  assert (Hopen : from_first_open (pre ++ ("{" ++ body ++ "}") ++ post)
                  = Some (body ++ "}" ++ post)).
  { apply from_first_open_spec. exists pre. split; [|exact Hpre].
    simpl. rewrite append_assoc. reflexivity. }
  assert (Hclose : upto_last_close (body ++ "}" ++ post) = Some (body ++ "}")).
  { apply upto_last_close_spec. exists body, post. repeat split. exact Hpost. }
  rewrite Hopen, Hclose. reflexivity.
Qed.

(** X11.  Prose or markdown fencing around the object changes nothing: as
    long as no opening brace comes before it and no closing brace after it,
    both functions read the text as they read the bare object. *)
Theorem fenced_object_is_read_bare :
  forall (pre body post : string),
    has_char "{" pre = false ->
    has_char "}" post = false ->
    let bare := "{" ++ body ++ "}" in
    gemini_parse (VStr (pre ++ bare ++ post)) = JSON_parse bare /\
    gemini_interpret (VStr (pre ++ bare ++ post)) = gemini_interpret (VStr bare) /\
    (forall parsed,
       JSON_parse bare = inr parsed ->
       verify_interpret (VStr (pre ++ bare ++ post)) = inr parsed).
Proof.
  intros pre body post Hpre Hpost bare.
  pose proof (match_braces_fenced pre body post Hpre Hpost) as Hm.
  pose proof (match_braces_fenced "" body "" eq_refl eq_refl) as Hb.
  simpl append in Hb. rewrite append_empty_r in Hb.
  fold bare in Hm. 
  assert (Hbare : match_braces bare = Some bare).
  { unfold bare. simpl. exact Hb. }
  assert (Hg : gemini_parse (VStr (pre ++ bare ++ post)) = JSON_parse bare).
  { unfold gemini_parse. rewrite Hm. reflexivity. }
  split; [exact Hg|]. split.
  - unfold gemini_interpret. rewrite Hg. unfold gemini_parse. rewrite Hbare. reflexivity.
  - intros parsed Hp. unfold verify_interpret. rewrite Hm, Hp. reflexivity.
Qed.


(** *** More on the Gemini path *)

Lemma wire_num (v : value) (p : Q) : wire v = VNum p -> v = VNum p.
Proof. destruct v; simpl; congruence. Qed.

(** The answer of a run whose completion text parses to [plantData]. *)
Lemma gemini_answer_of_parsed
      (w : World) (req : Request) (image plantData : value) (text : string) :
  gemini_run_reads w req image (VStr text) ->
  gemini_parse (VStr text) = inr plantData ->
  nullish plantData = false ->
  fst (serve (identify_plant_gemini w req))
  = if gemini_low_confidence plantData
    then json_response 200 (gemini_low_confidence_body plantData)
    else json_response 200 (gemini_result plantData).
Proof.
  intros Hrun Hparse Hn.
  assert (Ht : truthy (VStr text) = true).
  { destruct text; [|reflexivity]. discriminate Hparse. }
  rewrite (gemini_reaches_interpret w req image (VStr text) Hrun), Ht.
  unfold gemini_interpret. rewrite Hparse. io_unfold. rewrite Hn.
  unfold gemini_low_confidence. simpl.
  destruct (negb (truthy (prop plantData "identified")) || _); reflexivity.
Qed.

Lemma after_identify_success (r : Response) (previewUrl : string) :
  is_success r = true ->
  after_identify (functions_invoke r) previewUrl
  = Success (with_imageUrl (resp_body r) previewUrl).
Proof.
  unfold is_success, functions_invoke, after_identify. intros H.
  apply andb_true_iff in H. destruct H as [H Hlow].
  apply andb_true_iff in H. destruct H as [Hrange Hname].
  rewrite Hrange. cbn [error data].
  apply negb_true_iff in Hlow. rewrite Hlow, Hname, andb_false_r.
  destruct (resp_body r); simpl in Hname; try discriminate. reflexivity.
Qed.

Lemma after_identify_failure (r : Response) (previewUrl : string) :
  (200 <=? resp_status r)%Z && (resp_status r <=? 299)%Z = false ->
  after_identify (functions_invoke r) previewUrl = TransientError.
Proof. intros H. unfold functions_invoke, after_identify. rewrite H. reflexivity. Qed.

(** A success answer of the Gemini revision, traced back to the run it came
    from: the completion text the provider delivered and the object parsed
    from it. *)
Lemma gemini_success_run (w : World) (req : Request) :
  is_success (fst (serve (identify_plant_gemini w req))) = true ->
  exists image content plantData,
    gemini_run_reads w req image content /\
    gemini_parse content = inr plantData /\
    gemini_low_confidence plantData = false /\
    fst (serve (identify_plant_gemini w req)) = json_response 200 (gemini_result plantData).
Proof.
  unfold identify_plant_gemini.
  destruct (req_method req =? "OPTIONS") eqn:Hm; [not_success|].
  io_unfold.
  destruct (req_json req) as [e|body] eqn:Hj; [not_success|].
  destruct (nullish body) eqn:Hn; [not_success|]. simpl.
  destruct (truthy (prop body "imageBase64")) eqn:Hi; [|not_success]. simpl.
  destruct (env_missing w "GOOGLE_GEMINI_API_KEY") eqn:Hk; [not_success|].
  destruct (net w _) as [e|reply] eqn:Hnet; [not_success|].
  destruct (reply_ok reply) eqn:Hok; simpl.
  2:{ unfold gemini_upstream_error, new_Response.
      destruct (reply_status reply =? 429)%Z; [not_success|].
      destruct (reply_status reply =? 403)%Z; [not_success|].
      destruct (status_refused (reply_status reply)); not_success. }
  destruct (reply_json reply) as [e|ai] eqn:Hrj; [not_success|].
  destruct (nullish ai) eqn:Hna; [not_success|]. simpl.
  destruct (truthy (prop (index0 _) "text")) eqn:Htext; [|not_success]. simpl.
  unfold gemini_interpret.
  destruct (gemini_parse _) as [e|plantData] eqn:Hparse; [not_success|].
  io_unfold.
  destruct (nullish plantData) eqn:Hnp; [not_success|]. simpl.
  destruct (negb (truthy (prop plantData "identified")) || _) eqn:Hlow.
  - intros H; exfalso; revert H. unfold is_success, json_response.
    cbn [fst resp_status resp_body]. rewrite gemini_low_confidence_flag.
    simpl. rewrite andb_false_r. discriminate.
  - intros _. eexists (prop body "imageBase64"), _, plantData.
    split; [|split; [exact Hparse|split; [exact Hlow|reflexivity]]].
    split.
    + split; [apply String.eqb_neq; exact Hm|].
      split; [exists body; split; [exact Hj|split; [exact Hn|reflexivity]]|].
      split; [exact Hi|exact Hk].
    + exists reply, ai. unfold gemini_call.
      split; [exact Hnet|]. split; [exact Hok|]. split; [exact Hrj|].
      split; [exact Hna|reflexivity].
Qed.

(** X12.  A success answer of the Gemini revision always comes from a run
    whose completion text parsed to an object marked as identified and whose
    confidence is not below 0.5; the answer is the result built from that
    object, and a numeric probability in it is never below 0.5. *)
Theorem gemini_success_passed_the_gate :
  forall (w : World) (req : Request),
    is_success (fst (serve (identify_plant_gemini w req))) = true ->
    exists image content plantData,
      gemini_run_reads w req image content /\
      gemini_parse content = inr plantData /\
      truthy (prop plantData "identified") = true /\
      lt_number (prop plantData "confidence") (1 # 2) = false /\
      resp_body (fst (serve (identify_plant_gemini w req))) = wire (gemini_result plantData) /\
      forall p,
        prop (resp_body (fst (serve (identify_plant_gemini w req)))) "probability" = VNum p ->
        (1 # 2 <= p)%Q.
Proof.
  intros w req Hs.
  destruct (gemini_success_run w req Hs) as [image [content [plantData [Hrun [Hparse [Hgate Ha]]]]]].
  exists image, content, plantData. unfold gemini_low_confidence in Hgate.
  apply orb_false_iff in Hgate. destruct Hgate as [Hid Hlt].
  apply negb_false_iff in Hid.
  split; [exact Hrun|]. split; [exact Hparse|].
  split; [exact Hid|]. split; [exact Hlt|]. rewrite Ha. split; [reflexivity|].
  intros p Hp. unfold json_response in Hp. cbn [resp_body] in Hp.
  rewrite gemini_result_field in Hp.
  change (prop (gemini_result plantData) "probability")
    with (js_or (prop plantData "confidence") (VNum (4 # 5))) in Hp.
  unfold js_or in Hp. destruct (truthy (prop plantData "confidence")).
  - apply wire_num in Hp. rewrite Hp in Hlt. unfold lt_number in Hlt. simpl in Hlt.
    unfold Qlt_bool in Hlt. apply negb_false_iff in Hlt.
    apply Qle_bool_iff. exact Hlt.
  - simpl in Hp. injection Hp as <-. unfold Qle. simpl. lia.
Qed.

(** X13.  An object that is not marked as identified is answered as low
    confidence whatever confidence it states, and the answer repeats that
    confidence (0 when there is none). *)
Theorem not_identified_is_low_confidence :
  forall (w : World) (req : Request) (image plantData : value)
         (text previewUrl : string),
    gemini_run_reads w req image (VStr text) ->
    gemini_parse (VStr text) = inr plantData ->
    nullish plantData = false ->
    truthy (prop plantData "identified") = false ->
    let answer := fst (serve (identify_plant_gemini w req)) in
    resp_status answer = 200%Z /\
    prop (resp_body answer) "lowConfidence" = VBool true /\
    prop (resp_body answer) "probability" = wire (js_or (prop plantData "confidence") (VNum 0)) /\
    after_identify (functions_invoke answer) previewUrl = LowConfidence.
Proof.
  intros w req image plantData text previewUrl Hrun Hparse Hn Hid answer.
  assert (Ha : answer = json_response 200 (gemini_low_confidence_body plantData)).
  { unfold answer. rewrite (gemini_answer_of_parsed w req image plantData text Hrun Hparse Hn).
    unfold gemini_low_confidence. rewrite Hid. reflexivity. }
  rewrite Ha. split; [reflexivity|].
  split; [apply gemini_low_confidence_flag|]. split.
  - unfold json_response, gemini_low_confidence_body. cbn [resp_body].
    rewrite prop_wire_obj by all_defined. reflexivity.
  - apply after_identify_low_confidence; [reflexivity|apply gemini_low_confidence_flag].
Qed.

(** X14.  An identified object that states no confidence passes the gate
    and is reported with probability 0.8. *)
Theorem missing_confidence_is_accepted :
  forall (w : World) (req : Request) (image plantData : value)
         (text previewUrl : string),
    gemini_run_reads w req image (VStr text) ->
    gemini_parse (VStr text) = inr plantData ->
    truthy (prop plantData "identified") = true ->
    prop plantData "confidence" = VUndefined ->
    let answer := fst (serve (identify_plant_gemini w req)) in
    is_success answer = true /\
    prop (resp_body answer) "probability" = VNum (4 # 5) /\
    after_identify (functions_invoke answer) previewUrl
    = Success (with_imageUrl (resp_body answer) previewUrl).
Proof.
  intros w req image plantData text previewUrl Hrun Hparse Hid Hconf answer.
  assert (Hn : nullish plantData = false).
  { destruct plantData; try reflexivity; discriminate Hid. }
  assert (Ha : answer = json_response 200 (gemini_result plantData)).
  { unfold answer. rewrite (gemini_answer_of_parsed w req image plantData text Hrun Hparse Hn).
    unfold gemini_low_confidence, lt_number. rewrite Hid, Hconf. reflexivity. }
  rewrite Ha.
  pose proof (gemini_result_is_success plantData) as Hs.
  split; [exact Hs|]. split.
  - unfold json_response. cbn [resp_body]. rewrite gemini_result_field.
    change (prop (gemini_result plantData) "probability")
      with (js_or (prop plantData "confidence") (VNum (4 # 5))).
    rewrite Hconf. reflexivity.
  - apply after_identify_success, Hs.
Qed.

(** X15.  When the Gemini call fails, the endpoint answers with
    [apiError: true] after that one call, and the orchestrator ends in
    TransientError.  The status is the provider's when [new Response] accepts
    it; after a transport failure, and for a status the constructor refuses
    (under 200, over 599, or 304), the outer [catch] answers 500 with the
    message of what was thrown. *)
Theorem gemini_failure_is_transient :
  forall (w : World) (req : Request) (image : value) (previewUrl : string),
    passes_guards "GOOGLE_GEMINI_API_KEY" w req image ->
    upstream_failed (net w (gemini_call w image)) = true ->
    let answer := fst (serve (identify_plant_gemini w req)) in
    resp_status answer
    = match net w (gemini_call w image) with
      | inl _ => 500%Z
      | inr reply =>
          if status_refused (reply_status reply) then 500%Z else reply_status reply
      end /\
    prop (resp_body answer) "error"
    = VStr match net w (gemini_call w image) with
           | inl e => message_of e
           | inr reply =>
               if status_refused (reply_status reply)
               then Response_error_message (reply_status reply)
               else if (reply_status reply =? 429)%Z
               then "Rate limit exceeded. Please try again in a moment."
               else if (reply_status reply =? 403)%Z
               then "Invalid API key. Please check your Gemini API key."
               else "Failed to identify plant. Please try again."
           end /\
    prop (resp_body answer) "apiError" = VBool true /\
    snd (serve (identify_plant_gemini w req)) = [ gemini_call w image ] /\
    after_identify (functions_invoke answer) previewUrl = TransientError.
Proof.
  intros w req image previewUrl [Hm [[body [Hj [Hn Hi]]] [Ht Hk]]] Hfail answer.
  apply method_not_options in Hm.
  unfold answer, identify_plant_gemini. rewrite Hm. io_unfold.
  rewrite Hj, Hn. simpl. rewrite Hi, Ht. simpl. rewrite Hk.
  fold (gemini_call w image).
  destruct (net w (gemini_call w image)) as [e|reply]; simpl in Hfail.
  - repeat split; reflexivity.
  - apply negb_true_iff in Hfail. rewrite Hfail. cbn [negb fst snd].
    unfold gemini_upstream_error, new_Response.
    destruct (Z.eqb_spec (reply_status reply) 429) as [H429|H429];
      [|destruct (Z.eqb_spec (reply_status reply) 403) as [H403|H403]].
    + rewrite H429. repeat split; reflexivity.
    + rewrite H403. repeat split; reflexivity.
    + destruct (status_refused (reply_status reply)).
      * repeat split; reflexivity.
      * repeat split; try reflexivity.
        apply after_identify_failure. exact Hfail.
Qed.


(** *** Guards and discipline of the four handlers *)

(** X16.  With the image present but the function's key not configured,
    each edge function answers 500 "API key not configured" and calls
    nobody. *)
Theorem missing_key_is_a_configuration_error :
  forall (w : World) (req : Request) (body : value),
    req_method req <> "OPTIONS" ->
    req_json req = inr body ->
    nullish body = false ->
    truthy (prop body "imageBase64") = true ->
    (env_missing w "GOOGLE_GEMINI_API_KEY" = true ->
     serve (identify_plant_gemini w req)
     = (json_response 500 (VObj [ ("error", VStr "API key not configured");
                                  ("apiError", VBool true) ]), [])) /\
    (env_missing w "PLANTID_API_KEY" = true ->
     serve (identify_plant_plantid w req)
     = (json_response 500 (VObj [ ("error", VStr "API key not configured") ]), []) /\
     serve (identify_plant_plantid_v1 w req)
     = (json_response 500 (VObj [ ("error", VStr "API key not configured") ]), [])) /\
    (env_missing w "LOVABLE_API_KEY" = true ->
     serve (verify_plant w req)
     = (json_response 500 (VObj [ ("error", VStr "API key not configured") ]), [])).
Proof.
  intros w req body Hm Hj Hn Hi. apply method_not_options in Hm.
  unfold identify_plant_gemini, identify_plant_plantid, identify_plant_plantid_v1,
    verify_plant.
  rewrite Hm. io_unfold. rewrite Hj, Hn. simpl. rewrite Hi. simpl.
  split; [|split]; intros Hk; rewrite Hk; try split; reflexivity.
Qed.

Ltac calls_nobody :=
  eexists _, _; split; [reflexivity|left; reflexivity].

Ltac calls_once H :=
  eexists _, _;
  split; [reflexivity|right; eexists; split; [reflexivity|split; [exact H|reflexivity]]].

Ltac refusal := unfold gemini_upstream_error, new_Response;
  repeat match goal with
         | |- context [if ?c then _ else _] => destruct c
         end.

(** X17.  No run of an edge function ends in an uncaught exception, and a
    run makes at most one outbound call, to its own provider and with the
    [imageBase64] of the request's body, which is then truthy. *)
Theorem handlers_are_disciplined :
  forall (w : World) (req : Request),
    disciplined (gemini_url (env_value w "GOOGLE_GEMINI_API_KEY")) req
      (identify_plant_gemini w req) /\
    disciplined plantid_url req (identify_plant_plantid w req) /\
    disciplined plantid_url req (identify_plant_plantid_v1 w req) /\
    disciplined verify_url req (verify_plant w req).
Proof.
  intros w req. unfold disciplined.
  split; [|split; [|split]].
  - unfold identify_plant_gemini.
    destruct (req_method req =? "OPTIONS"); [calls_nobody|]. io_unfold.
    destruct (req_json req) as [e|body] eqn:Hj; [calls_nobody|].
    destruct (nullish body); [calls_nobody|]. simpl.
    destruct (truthy (prop body "imageBase64")) eqn:Hi; [|calls_nobody]. simpl.
    destruct (env_missing w "GOOGLE_GEMINI_API_KEY"); [calls_nobody|].
    destruct (net w _) as [e|reply]; [calls_once Hi|].
    destruct (reply_ok reply); simpl; [|refusal; calls_once Hi].
    destruct (reply_json reply) as [e|ai]; [calls_once Hi|].
    destruct (nullish ai); [calls_once Hi|]. simpl.
    destruct (truthy (prop (index0 _) "text")); [|calls_once Hi]. simpl.
    unfold gemini_interpret.
    destruct (gemini_parse _) as [e|plantData]; [calls_once Hi|]. io_unfold.
    destruct (nullish plantData); [calls_once Hi|]. simpl.
    destruct (negb (truthy (prop plantData "identified")) || _); calls_once Hi.
  - unfold identify_plant_plantid.
    destruct (req_method req =? "OPTIONS"); [calls_nobody|]. io_unfold.
    destruct (req_json req) as [e|body] eqn:Hj; [calls_nobody|].
    destruct (nullish body); [calls_nobody|]. simpl.
    destruct (truthy (prop body "imageBase64")) eqn:Hi; [|calls_nobody]. simpl.
    destruct (env_missing w "PLANTID_API_KEY"); [calls_nobody|].
    destruct (net w _) as [e|reply]; [calls_once Hi|].
    destruct (reply_ok reply); simpl; [|refusal; calls_once Hi].
    destruct (reply_json reply) as [e|answer]; [calls_once Hi|].
    unfold plantid_respond. io_unfold.
    destruct (nullish answer); [calls_once Hi|]. simpl.
    destruct (truthy (index0 _)); [|calls_once Hi]. simpl.
    destruct (plantid_result _) as [e|result]; calls_once Hi.
  - unfold identify_plant_plantid_v1.
    destruct (req_method req =? "OPTIONS"); [calls_nobody|]. io_unfold.
    destruct (req_json req) as [e|body] eqn:Hj; [calls_nobody|].
    destruct (nullish body); [calls_nobody|]. simpl.
    destruct (truthy (prop body "imageBase64")) eqn:Hi; [|calls_nobody]. simpl.
    destruct (env_missing w "PLANTID_API_KEY"); [calls_nobody|].
    destruct (net w _) as [e|reply]; [calls_once Hi|].
    destruct (reply_ok reply); simpl; [|refusal; calls_once Hi].
    destruct (reply_json reply) as [e|answer]; [calls_once Hi|].
    destruct (nullish answer); [calls_once Hi|]. simpl.
    destruct (truthy (index0 _)); calls_once Hi.
  - unfold verify_plant.
    destruct (req_method req =? "OPTIONS"); [calls_nobody|]. io_unfold.
    destruct (req_json req) as [e|body] eqn:Hj; [calls_nobody|].
    destruct (nullish body); [calls_nobody|]. simpl.
    destruct (truthy (prop body "imageBase64")) eqn:Hi; [|calls_nobody]. simpl.
    destruct (env_missing w "LOVABLE_API_KEY"); [calls_nobody|].
    destruct (net w _) as [e|reply]; [calls_once Hi|].
    destruct (reply_ok reply); simpl; [|calls_once Hi].
    destruct (reply_json reply) as [e|answer]; [calls_once Hi|].
    destruct (nullish answer); [calls_once Hi|]. simpl.
    destruct (verify_interpret _) as [e|result]; calls_once Hi.
Qed.

(** *** More on the PlantID path *)

Lemma plantid_reaches_respond
      (w : World) (req : Request) (image answer : value) :
  plantid_run_reads w req image answer ->
  serve (identify_plant_plantid w req)
  = match plantid_respond answer [ mkCall plantid_url image ] with
    | (inr r, tr) => (r, tr)
    | (inl e, tr) => (json_response 500 (VObj [ ("error", VStr (message_of e)) ]), tr)
    end.
Proof.
  intros [[Hm [[body [Hj [Hn Hi]]] [Ht Hk]]] [reply [Hnet [Hok Hrj]]]].
  apply method_not_options in Hm.
  unfold identify_plant_plantid. rewrite Hm. io_unfold.
  rewrite Hj, Hn. simpl. rewrite Hi, Ht. simpl. rewrite Hk, Hnet, Hok. simpl.
  rewrite Hrj.
  destruct (plantid_respond answer _) as [[e|r] tr]; reflexivity.
Qed.

(** X18.  When PlantID returns no suggestion, the endpoint answers 404 "No
    plant identified", which the orchestrator shows as TransientError (not
    as LowConfidence). *)
Theorem no_suggestion_is_transient :
  forall (w : World) (req : Request) (image answer : value) (previewUrl : string),
    plantid_run_reads w req image answer ->
    nullish answer = false ->
    truthy (index0 (js_or (prop answer "suggestions") (VArr []))) = false ->
    fst (serve (identify_plant_plantid w req))
    = json_response 404 (VObj [ ("error", VStr "No plant identified") ]) /\
    after_identify (functions_invoke (fst (serve (identify_plant_plantid w req)))) previewUrl
    = TransientError /\
    TransientError <> LowConfidence.
Proof.
  intros w req image answer previewUrl Hrun Hn Hnone.
  assert (Ha : fst (serve (identify_plant_plantid w req))
               = json_response 404 (VObj [ ("error", VStr "No plant identified") ])).
  { rewrite (plantid_reaches_respond w req image answer Hrun).
    unfold plantid_respond. io_unfold. rewrite Hn. simpl. rewrite Hnone. reflexivity. }
  split; [exact Ha|]. rewrite Ha. split; [reflexivity|discriminate].
Qed.

Lemma plantid_build_is_success (topSuggestion : value) (raw : string) :
  is_success (json_response 200 (plantid_build topSuggestion raw)) = true.
Proof.
  unfold is_success, json_response. cbn [resp_status resp_body].
  rewrite !plantid_build_field. simpl.
  rewrite wire_truthy; [reflexivity|].
  apply js_or_truthy. unfold plantid_scientificName. apply js_or_truthy. reflexivity.
Qed.

Ltac out_of_range := left; reflexivity.

(** A request that is not the preflight gets either an answer outside 2xx
    or a success. *)
Lemma plantid_answer_kinds (w : World) (req : Request) :
  req_method req <> "OPTIONS" ->
  let r := fst (serve (identify_plant_plantid w req)) in
  (200 <=? resp_status r)%Z && (resp_status r <=? 299)%Z = false \/ is_success r = true.
Proof.
  intros Hm. apply method_not_options in Hm.
  unfold identify_plant_plantid. rewrite Hm. io_unfold.
  destruct (req_json req) as [e|body]; [out_of_range|].
  destruct (nullish body); [out_of_range|]. simpl.
  destruct (truthy (prop body "imageBase64")); [|out_of_range]. simpl.
  destruct (env_missing w "PLANTID_API_KEY"); [out_of_range|].
  destruct (net w _) as [e|reply]; [out_of_range|].
  destruct (reply_ok reply) eqn:Hok; simpl;
    [|unfold new_Response; destruct (status_refused _); [out_of_range|left; exact Hok]].
  destruct (reply_json reply) as [e|answer]; [out_of_range|].
  unfold plantid_respond. io_unfold.
  destruct (nullish answer); [out_of_range|]. simpl.
  destruct (truthy (index0 _)); [|out_of_range]. simpl.
  unfold plantid_result.
  destruct (plantid_rawDescription _);
    [out_of_range|out_of_range|out_of_range|out_of_range| |out_of_range|out_of_range].
  right. apply plantid_build_is_success.
Qed.

(** X19.  With the PlantID revision deployed, no run of the orchestrator
    ends in LowConfidence: it ends in NotAPlant, Success or TransientError. *)
Theorem plantid_runs_never_end_in_low_confidence :
  forall (w : World) (base64 previewUrl : string),
    let outcome := fst (processImage (deployed identify_plant_plantid w) base64 previewUrl) in
    outcome <> LowConfidence /\
    (outcome = NotAPlant \/ outcome = TransientError \/ exists result, outcome = Success result).
Proof.
  intros w base64 previewUrl outcome.
  assert (H : outcome = NotAPlant \/ outcome = TransientError
              \/ exists result, outcome = Success result).
  { unfold outcome, processImage.
    destruct (verification_rejects _); [left; reflexivity|]. right.
    cbn [fst]. unfold deployed. cbn [String.eqb Ascii.eqb Bool.eqb].
    match goal with
    | |- context [serve (identify_plant_plantid w ?req)] =>
        pose proof (plantid_answer_kinds w req ltac:(discriminate)) as Hk
    end.
    cbv zeta in Hk. destruct Hk as [Hk|Hk].
    - left. apply after_identify_failure, Hk.
    - right. eexists. apply after_identify_success, Hk. }
  split; [|exact H].
  destruct H as [-> | [-> | [result ->]]]; discriminate.
Qed.

(** *** More on the verifier *)

Lemma verify_answer_of_text
      (w : World) (req : Request) (image : value) (text : string) :
  verify_run_reads w req image (VStr text) ->
  fst (serve (verify_plant w req))
  = match verify_interpret (VStr text) with
    | inl e => json_response 200 verify_on_error
    | inr result => json_response 200 result
    end.
Proof.
  intros [Hpass [reply [answer [Hnet [Hok [Hrj [Hn Hc]]]]]]].
  rewrite (verify_reaches_call w req image Hpass), Hnet, Hok, Hrj, Hn, <- Hc.
  destruct (verify_interpret (VStr text)); reflexivity.
Qed.

(** X20.  A classifier answer that holds a parsable object is passed on as
    it is, whatever its fields; the orchestrator then stops the run exactly
    when that object is truthy and its [isPlant] is not. *)
Theorem verifier_passes_the_object_on :
  forall (w : World) (req : Request) (image parsed : value) (text m : string),
    verify_run_reads w req image (VStr text) ->
    match_braces text = Some m ->
    JSON_parse m = inr parsed ->
    let answer := fst (serve (verify_plant w req)) in
    resp_status answer = 200%Z /\
    resp_body answer = wire parsed /\
    verification_rejects (functions_invoke answer)
    = truthy (wire parsed) && negb (truthy (prop (wire parsed) "isPlant")).
Proof.
  intros w req image parsed text m Hrun Hm Hp answer.
  assert (Ha : answer = json_response 200 parsed).
  { unfold answer. rewrite (verify_answer_of_text w req image text Hrun).
    unfold verify_interpret. rewrite Hm, Hp. reflexivity. }
  rewrite Ha. repeat split.
Qed.

Lemma isplant_holds_plant (l : string) :
  includes "isplant" l = true -> includes "plant" l = true.
Proof.
  rewrite !includes_spec. intros [a [b ->]].
  exists (a ++ "is"), b. rewrite append_assoc. reflexivity.
Qed.

(** X21.  A malformed answer that names the [isPlant] key, in any case, is
    always read as a plant by the keyword test, also when it says false:
    the run is not stopped. *)
Theorem naming_isPlant_reads_as_plant :
  forall (w : World) (req : Request) (image : value) (text m : string) (e : exn),
    verify_run_reads w req image (VStr text) ->
    match_braces text = Some m ->
    JSON_parse m = inl e ->
    includes "isplant" (toLowerCase text) = true ->
    let answer := fst (serve (verify_plant w req)) in
    prop (resp_body answer) "isPlant" = VBool true /\
    verification_rejects (functions_invoke answer) = false.
Proof.
  intros w req image text m e Hrun Hm Hp Hkey answer.
  assert (Hk : verify_keywords text = true).
  { unfold verify_keywords. cbv zeta.
    rewrite (isplant_holds_plant _ Hkey), orb_true_r. reflexivity. }
  assert (Ha : answer = json_response 200
                          (VObj [ ("isPlant", VBool true); ("confidence", VNum (1 # 2)) ])).
  { unfold answer. rewrite (verify_answer_of_text w req image text Hrun).
    unfold verify_interpret. rewrite Hm, Hp, Hk. reflexivity. }
  rewrite Ha. split; reflexivity.
Qed.

(** X22.  The verifier never blocks a run by failing: when its key is not
    configured or its classifier call fails, the orchestrator goes on to
    identification. *)
Theorem failed_verification_lets_the_run_go_on :
  forall (identify : World -> Request -> IO Response) (w : World)
         (base64 previewUrl : string),
    base64 <> "" ->
    env_missing w "LOVABLE_API_KEY" = true
    \/ upstream_failed (net w (mkCall verify_url (VStr base64))) = true ->
    processImage (deployed identify w) base64 previewUrl
    = (after_identify (deployed identify w "identify-plant" (image_body base64)) previewUrl,
       [ "verify-plant"; "identify-plant" ]).
Proof.
  intros identify w base64 previewUrl Hb Hfail.
  apply processImage_after_verification.
  unfold deployed. cbn [String.eqb Ascii.eqb Bool.eqb].
  change (wire (image_body base64)) with (image_body base64).
  assert (Ht : truthy (VStr base64) = true).
  { simpl. apply negb_true_iff, String.eqb_neq, Hb. }
  destruct (env_missing w "LOVABLE_API_KEY") eqn:Hk.
  - unfold verify_plant. io_unfold. simpl.
    destruct base64; [congruence|]. simpl. rewrite Hk. reflexivity.
  - destruct Hfail as [Hfail|Hfail]; [discriminate|].
    assert (Hpass : passes_guards "LOVABLE_API_KEY" w
                      (mkRequest "POST" (inr (image_body base64))) (VStr base64)).
    { split; [discriminate|]. split; [|split; assumption].
      exists (image_body base64). repeat split. }
    rewrite (verify_reaches_call w _ (VStr base64) Hpass).
    destruct (net w _) as [e|reply]; simpl in Hfail.
    + reflexivity.
    + apply negb_true_iff in Hfail. rewrite Hfail. reflexivity.
Qed.

(** *** More on the orchestrator *)

Lemma lookup_assign_same (k : string) (x : value) (ps : list (string * value)) :
  lookup k (assign_props k x ps) = x.
Proof.
  induction ps as [|[k' v] ps IH]; simpl; [rewrite String.eqb_refl; reflexivity|].
  destruct (k =? k') eqn:E; simpl; rewrite E; [reflexivity|exact IH].
Qed.

Lemma lookup_assign_other (k k' : string) (x : value) (ps : list (string * value)) :
  k' <> k -> lookup k' (assign_props k x ps) = lookup k' ps.
Proof.
  intros Hne. induction ps as [|[k0 v] ps IH]; simpl.
  - apply String.eqb_neq in Hne. rewrite Hne. reflexivity.
  - destruct (k =? k0) eqn:E; simpl.
    + apply String.eqb_eq in E. subst k0.
      apply String.eqb_neq in Hne. rewrite Hne. reflexivity.
    + destruct (k' =? k0); [reflexivity|exact IH].
Qed.

(** X23.  A run that ends in Success hands over the identification answer
    unchanged except for [imageUrl], which is the preview of that run; the
    answer has a name, is not flagged as low confidence, and both functions
    were invoked. *)
Theorem success_carries_the_answer_and_the_preview :
  forall (backend : Backend) (base64 previewUrl : string) (result : value),
    fst (processImage backend base64 previewUrl) = Success result ->
    let answer := data (backend "identify-plant" (image_body base64)) in
    prop result "imageUrl" = VStr previewUrl /\
    (forall k, k <> "imageUrl" -> prop result k = prop answer k) /\
    truthy (prop answer "commonName") = true /\
    truthy (prop answer "lowConfidence") = false /\
    snd (processImage backend base64 previewUrl) = [ "verify-plant"; "identify-plant" ].
Proof.
  intros backend base64 previewUrl result. unfold processImage.
  destruct (verification_rejects _); [discriminate|]. cbn [fst snd].
  unfold after_identify.
  destruct (error (backend "identify-plant" (image_body base64))); [discriminate|].
  destruct (data (backend "identify-plant" (image_body base64))) as [| |b|n|s|l|ps];
    simpl; rewrite ?andb_false_r; try discriminate.
  destruct (truthy (lookup "lowConfidence" ps)) eqn:Hlow; [discriminate|].
  destruct (truthy (lookup "commonName" ps)) eqn:Hname; [|discriminate].
  intros H. injection H as <-. simpl.
  split; [apply lookup_assign_same|].
  split; [intros k Hk; apply lookup_assign_other, Hk|].
  repeat split; assumption.
Qed.

(** *** The payload of a data URL *)

Lemma split_go_no_comma (a cur rest : string) :
  has_char "," a = false ->
  split_go "," 0 cur (a ++ rest) = split_go "," 0 (cur ++ a) rest.
Proof.
  revert cur. induction a as [|x a IH]; intros cur Ha.
  - simpl. rewrite append_empty_r. reflexivity.
  - cbn [has_char] in Ha. apply orb_false_iff in Ha. destruct Ha as [Hx Ha].
    cbn [append split_go prefix].
    destruct (ascii_dec "," x) as [Heq|Hne].
    + subst x. rewrite Ascii.eqb_refl in Hx. discriminate.
    + rewrite (IH _ Ha), append_assoc. reflexivity.
Qed.

(** X24.  The image sent to the edge functions is the part of the data URL
    after its comma, so the header, a comma and the image make up the
    preview again; a data URL without a comma has no image to send. *)
Theorem data_url_payload :
  forall (header payload : string),
    has_char "," header = false ->
    has_char "," payload = false ->
    base64_of_dataUrl (header ++ "," ++ payload) = Some payload /\
    base64_of_dataUrl header = None.
Proof.
  intros header payload Hh Hp. unfold base64_of_dataUrl, split.
  assert (Hone : forall t, has_char "," t = false -> split_go "," 0 "" t = [ t ]).
  { intros t Ht. pose proof (split_go_no_comma t "" "" Ht) as H.
    rewrite append_empty_r in H. exact H. }
  split.
  - rewrite (split_go_no_comma header "" ("," ++ payload) Hh).
    cbn [append split_go].
    assert (Hpre : prefix "," (String "," payload) = true)
      by (apply prefix_spec; exists payload; reflexivity).
    rewrite Hpre. cbn [String.length Nat.sub].
    rewrite (Hone payload Hp). reflexivity.
  - rewrite (Hone header Hh). reflexivity.
Qed.


(** *** Further edge cases *)

(** X25.  A description that is not text makes the PlantID normaliser
    throw: the endpoint answers 500 with the engine's message and the run
    ends in TransientError, although a suggestion was there. *)
Theorem description_not_text_is_an_error :
  forall (w : World) (req : Request) (image answer : value) (previewUrl : string),
    plantid_run_reads w req image answer ->
    nullish answer = false ->
    let topSuggestion := index0 (js_or (prop answer "suggestions") (VArr [])) in
    truthy topSuggestion = true ->
    (forall raw, plantid_rawDescription topSuggestion <> VStr raw) ->
    fst (serve (identify_plant_plantid w req))
    = json_response 500 (VObj [ ("error", VStr (TypeError_message "rawDescription.split")) ]) /\
    after_identify (functions_invoke (fst (serve (identify_plant_plantid w req)))) previewUrl
    = TransientError.
Proof.
  intros w req image answer previewUrl Hrun Hn top Htop Hraw.
  assert (Ha : fst (serve (identify_plant_plantid w req))
               = json_response 500
                   (VObj [ ("error", VStr (TypeError_message "rawDescription.split")) ])).
  { rewrite (plantid_reaches_respond w req image answer Hrun).
    unfold plantid_respond. io_unfold. rewrite Hn. simpl. fold top. rewrite Htop. simpl.
    unfold plantid_result.
    destruct (plantid_rawDescription top) eqn:E; try reflexivity.
    exfalso. exact (Hraw _ eq_refl). }
  split; [exact Ha|]. rewrite Ha. reflexivity.
Qed.

(** X26.  A Gemini answer without completion text, or whose text is not a
    string, is answered 200 with [lowConfidence: true] and ends in
    LowConfidence. *)
Theorem no_completion_text_is_low_confidence :
  forall (w : World) (req : Request) (image content : value) (previewUrl : string),
    gemini_run_reads w req image content ->
    (forall text, content <> VStr text) \/ content = VStr "" ->
    let answer := fst (serve (identify_plant_gemini w req)) in
    resp_status answer = 200%Z /\
    prop (resp_body answer) "lowConfidence" = VBool true /\
    prop (resp_body answer) "error"
    = VStr (if truthy content then "Failed to parse plant data" else "No identification result") /\
    after_identify (functions_invoke answer) previewUrl = LowConfidence.
Proof.
  intros w req image content previewUrl Hrun Hc answer.
  unfold answer. rewrite (gemini_reaches_interpret w req image content Hrun).
  destruct (truthy content) eqn:Ht.
  - assert (Hp : exists e, gemini_parse content = inl e).
    { destruct Hc as [Hc| ->]; [|discriminate Ht].
      destruct content; try (eexists; reflexivity).
      exfalso. exact (Hc _ eq_refl). }
    destruct Hp as [e He]. unfold gemini_interpret. rewrite He.
    repeat split; reflexivity.
  - repeat split; reflexivity.
Qed.

(** X27.  A request whose body is not JSON never reaches a provider: the
    identification functions answer 500 with the parser's message, and the
    verifier still answers 200 with [isPlant: true]. *)
Theorem body_that_is_not_json :
  forall (w : World) (req : Request) (e : exn),
    req_method req <> "OPTIONS" ->
    req_json req = inl e ->
    serve (identify_plant_gemini w req)
    = (json_response 500 (VObj [ ("error", VStr (message_of e)); ("apiError", VBool true) ]), []) /\
    serve (identify_plant_plantid w req)
    = (json_response 500 (VObj [ ("error", VStr (message_of e)) ]), []) /\
    serve (verify_plant w req) = (json_response 200 verify_on_error, []) /\
    prop (resp_body (fst (serve (verify_plant w req)))) "isPlant" = VBool true.
Proof.
  intros w req e Hm Hj. apply method_not_options in Hm.
  unfold identify_plant_gemini, identify_plant_plantid, verify_plant.
  rewrite Hm. io_unfold. rewrite Hj. repeat split; reflexivity.
Qed.

End Runtime.

(** *** The watering calculator *)

Section Watering.
Import JSDate.
Local Open Scope Z_scope.

(** The year function is the calendar's: a day lies within its year. *)
Lemma YearFromDay_spec (d : Z) :
  DayFromYear (YearFromDay d) <= d < DayFromYear (YearFromDay d + 1).
Proof.
  unfold YearFromDay. cbv zeta.
  destruct (Z.ltb_spec d (DayFromYear (1970 + d * 400 / 146097))) as [Hlt|Hge];
    [|destruct (Z.leb_spec (DayFromYear (1970 + d * 400 / 146097 + 1)) d) as [Hle|Hgt]].
  - replace (1970 + d * 400 / 146097 - 1 + 1) with (1970 + d * 400 / 146097) by lia.
    split; [|assumption]. revert Hlt. unfold DayFromYear.
    Z.to_euclidean_division_equations. lia.
  - split; [lia|]. revert Hge Hle. unfold DayFromYear.
    Z.to_euclidean_division_equations. lia.
  - lia.
Qed.

Lemma year_length (y : Z) :
  DayFromYear (y + 1) - DayFromYear y = 365 + (if leap y then 1 else 0).
Proof.
  unfold DayFromYear, leap.
  replace (y + 1 - 1970) with (y - 1969) by lia.
  replace (y + 1 - 1969) with (y - 1968) by lia.
  replace (y + 1 - 1901) with (y - 1900) by lia.
  replace (y + 1 - 1601) with (y - 1600) by lia.
  destruct (Z.eqb_spec (y mod 4) 0), (Z.eqb_spec (y mod 100) 0),
    (Z.eqb_spec (y mod 400) 0); cbn [andb orb negb];
    Z.to_euclidean_division_equations; lia.
Qed.

Lemma DayWithinYear_range (t : Z) : 0 <= DayWithinYear t < 365 + InLeapYear t.
Proof.
  unfold DayWithinYear, InLeapYear, YearFromTime.
  pose proof (YearFromDay_spec (Day t)) as H.
  pose proof (year_length (YearFromDay (Day t))) as L.
  lia.
Qed.

(** The day of the month is one of 1 to 31. *)
Lemma DateFromTime_range (t : Z) : 1 <= DateFromTime t <= 31.
Proof.
  pose proof (DayWithinYear_range t) as H.
  assert (HL : InLeapYear t = 0 \/ InLeapYear t = 1)
    by (unfold InLeapYear; destruct (leap _); lia).
  unfold DateFromTime, MonthFromTime, month_start. cbv zeta.
  repeat match goal with
         | |- context [if (?a <? ?b) then _ else _] => destruct (Z.ltb_spec a b)
         end; cbn [Z.eqb Pos.eqb]; lia.
Qed.

Lemma MonthFromTime_range (t : Z) : 0 <= MonthFromTime t < 12.
Proof.
  unfold MonthFromTime. cbv zeta.
  repeat match goal with
         | |- context [if ?c then _ else _] => destruct c
         end; lia.
Qed.

(** Setting the date to the current one plus [f] moves the day number by [f]:
    the carry into the next months and years is that of the calendar. *)
Lemma MakeDay_shift (t f : Z) :
  MakeDay (YearFromTime t) (MonthFromTime t) (DateFromTime t + f) = Day t + f.
Proof.
  pose proof (MonthFromTime_range t) as Hm.
  unfold MakeDay, DateFromTime, DayWithinYear, InLeapYear. cbv zeta.
  rewrite (Z.div_small (MonthFromTime t) 12 Hm), (Z.mod_small (MonthFromTime t) 12 Hm).
  rewrite Z.add_0_r. lia.
Qed.

Lemma msPerDay_pos : 0 < msPerDay.
Proof. unfold msPerDay. lia. Qed.

(** The local time value that [setDate] builds: the same time of day,
    [f] days on. *)
Lemma MakeDate_shift (t f : Z) :
  MakeDate (MakeDay (YearFromTime t) (MonthFromTime t) (DateFromTime t + f)) (TimeWithinDay t)
  = t + f * msPerDay.
Proof.
  rewrite MakeDay_shift. unfold MakeDate, Day, TimeWithinDay.
  pose proof (Z.div_mod t msPerDay) as H.
  assert (Hd : msPerDay <> 0) by (unfold msPerDay; lia).
  specialize (H Hd). lia.
Qed.

Lemma TimeClip_in (t : Z) : Z.abs t <= maxTime -> TimeClip t = Some t.
Proof. intros H. unfold TimeClip. apply Z.leb_le in H. rewrite H. reflexivity. Qed.


Lemma TimeClip_some (t u : Z) : TimeClip t = Some u -> u = t /\ Z.abs t <= maxTime.
Proof.
  unfold TimeClip. destruct (Z.leb_spec (Z.abs t) maxTime) as [H|H]; [|discriminate].
  intros E. injection E as <-. split; [reflexivity|exact H].
Qed.

Lemma new_Date_twice (t : Z) : new_Date (new_Date (Some t)) = TimeClip t.
Proof.
  unfold new_Date. destruct (TimeClip t) as [u|] eqn:E; [|reflexivity].
  apply TimeClip_some in E. destruct E as [-> H]. apply TimeClip_in, H.
Qed.

(** The next watering date: the local time of the last watering moved on by
    [frequency] days and read back as UTC, when both dates are valid. *)
Lemma next_watering_value (z : TimeZone) (lastWatered frequency : Z) :
  next_watering z lastWatered frequency
  = match TimeClip lastWatered with
    | Some _ => TimeClip (UTC z (LocalTime z lastWatered + frequency * msPerDay))
    | None => None
    end.
Proof.
  unfold next_watering. cbv zeta. rewrite new_Date_twice.
  destruct (TimeClip lastWatered) as [u|] eqn:E; [|reflexivity].
  apply TimeClip_some in E. destruct E as [-> _].
  unfold setDate, getDate, num_add. cbv zeta. rewrite MakeDate_shift. reflexivity.
Qed.

(** [ceil_div a b] is the least integer not below [a / b]. *)
Lemma ceil_div_spec (a b : Z) :
  0 < b -> b * (ceil_div a b - 1) < a <= b * ceil_div a b.
Proof.
  intros Hb. unfold ceil_div.
  pose proof (Z.div_mod (- a) b) as H.
  pose proof (Z.mod_pos_bound (- a) b Hb) as Hr.
  assert (Hd : b <> 0) by lia. specialize (H Hd). nia.
Qed.


(** [ceil_div] is determined by the two bounds. *)
Lemma ceil_div_unique (a b q : Z) :
  0 < b -> b * (q - 1) < a <= b * q -> ceil_div a b = q.
Proof.
  intros Hb Hq. pose proof (ceil_div_spec a b Hb) as H. nia.
Qed.

Lemma Dashboard_days (z : TimeZone) (today lastWatered frequency : Z) :
  Dashboard.getDaysUntilWatering z today lastWatered frequency
  = match next_watering z lastWatered frequency with
    | Some next => Some (ceil_div (next - today) msPerDay)
    | None => None
    end.
Proof.
  unfold Dashboard.getDaysUntilWatering, next_watering. cbv zeta.
  destruct (setDate z _ _) as [next|]; reflexivity.
Qed.

Lemma MyPlants_days (z : TimeZone) (today lastWatered frequency : Z) :
  MyPlants.getDaysUntilWatering z today lastWatered frequency
  = match next_watering z lastWatered frequency with
    | Some next => Some (ceil_div (next - today) msPerDay)
    | None => None
    end.
Proof.
  unfold MyPlants.getDaysUntilWatering, next_watering. cbv zeta.
  destruct (setDate z _ _) as [next|]; reflexivity.
Qed.

(** In an undisturbed period the next watering is [frequency] times 24 hours
    after the last. *)
Lemma next_watering_undisturbed (z : TimeZone) (lastWatered frequency : Z) :
  undisturbed z lastWatered frequency ->
  next_watering z lastWatered frequency = Some (lastWatered + frequency * msPerDay).
Proof.
  intros [Hlast [Hnext Hoff]].
  rewrite next_watering_value, (TimeClip_in lastWatered Hlast).
  unfold UTC. rewrite Hoff. unfold LocalTime.
  replace (lastWatered + offset_at z lastWatered + frequency * msPerDay - offset_at z lastWatered)
    with (lastWatered + frequency * msPerDay) by lia.
  apply TimeClip_in, Hnext.
Qed.



(** In an undisturbed period the three readings do not depend on the clock
    standing still: they hold for a [new Date()] taken up to a day later. *)
Lemma days_until_watering_later_clock (z : TimeZone) (now delta : Z) :
  0 <= delta < msPerDay ->
  (undisturbed z (now - 7 * msPerDay) 7 ->
   Dashboard.getDaysUntilWatering z (now + delta) (now - 7 * msPerDay) 7 = Some 0) /\
  (undisturbed z (now - 10 * msPerDay) 7 ->
   Dashboard.getDaysUntilWatering z (now + delta) (now - 10 * msPerDay) 7 = Some (-3)) /\
  (undisturbed z now 7 ->
   Dashboard.getDaysUntilWatering z (now + delta) now 7 = Some 7).
Proof.
  intros Hd. pose proof msPerDay_pos as Hpos.
  repeat split; intros H; rewrite Dashboard_days, (next_watering_undisturbed z _ _ H);
    f_equal; apply ceil_div_unique; try exact Hpos; unfold msPerDay in *; lia.
Qed.

End Watering.

(** ** Examples

    The theorems at concrete runs, with the built-ins of the examples. *)

Abbreviation ex_verify := (verify_plant example_JSON_parse example_TypeError_message).
Abbreviation ex_gemini :=
  (identify_plant_gemini example_JSON_parse example_Number_toString
     example_StringToNumber example_TypeError_message
     example_Response_error_message).
Abbreviation ex_plantid :=
  (identify_plant_plantid example_Number_toString example_TypeError_message
     example_Response_error_message).
Abbreviation ex_deployed := (deployed example_JSON_parse example_TypeError_message).
Abbreviation sample_image := (VStr "aGVsbG8=").
Abbreviation sample_request := (post (VObj [ ("imageBase64", VStr "aGVsbG8=") ])).
Abbreviation unreachable := (inl (JsError "connection refused")).
Abbreviation ok_reply body := (inr (mkReply 200 (inr body))).

Ltac show_run :=
  repeat first [ discriminate | reflexivity | split | eexists ].

Example split_sentences :
  split ". " "A flowering shrub. It has thorns. It blooms in summer. It needs full sun."
  = [ "A flowering shrub"; "It has thorns"; "It blooms in summer"; "It needs full sun." ].
Proof. reflexivity. Qed.

Example match_braces_is_greedy :
  match_braces "Sure: {a} and {b}. Done" = Some "{a} and {b}"
  /\ match_braces "} nothing {" = None.
Proof. split; reflexivity. Qed.

Example leap_day_plus_seven :
  let utc := JSDate.fixed_zone 0%Z in
  let next :=
    JSDate.setDate utc (Some 1709208000000%Z)
      (num_add (JSDate.getDate utc (Some 1709208000000%Z)) (Some 7%Z)) in
  JSDate.getDate utc next = Some 7%Z
  /\ option_map JSDate.MonthFromTime next = Some 2%Z.
Proof. split; reflexivity. Qed.

(** The time of day counts: an hour before the seventh day is up, one day
    is left. *)
Example an_hour_early :
  Dashboard.getDaysUntilWatering (JSDate.fixed_zone 0%Z) 1709208000000
    (1709208000000 - 7 * 86400000 + 3600000) 7 = Some 1%Z.
Proof. reflexivity. Qed.

(** A frequency that carries the next watering past the last valid [Date]. *)
Example frequency_out_of_range :
  Dashboard.getDaysUntilWatering (JSDate.fixed_zone 0%Z) 1709208000000 1709208000000 100000001
  = None.
Proof. reflexivity. Qed.

Ltac evaluated := vm_compute; first [ reflexivity | discriminate ].



(** The spring of 2024 in New York.  A plant watered on 6 March at noon is
    next due on 13 March at noon, which comes 7 times 24 hours less one hour
    later: half an hour before the seven times 24 hours are up it already
    needs water. *)
Example clocks_set_forward_due_early :
  let last := 1709744400000%Z in
  let today := (last + 7 * JSDate.msPerDay - 1800000)%Z in
  let p := mkPlant "p3" "Mint" "Mentha" 7 last in
  next_watering new_york_spring_2024 last 7 = Some (last + 7 * JSDate.msPerDay - 3600000)%Z /\
  daysUntilWatering (task_of new_york_spring_2024 today p) = Some 0%Z /\
  needsWater (task_of new_york_spring_2024 today p) = true.
Proof. cbv zeta. repeat split; reflexivity. Qed.

(** A status the constructor accepts is passed on, one it refuses is not. *)
Example gemini_passes_503_on :
  let w := example_world unreachable (inr (mkReply 503 (inl (JsError "Unexpected end of JSON input")))) in
  fst (serve (ex_gemini w sample_request))
  = json_response 503 (VObj [ ("error", VStr "Failed to identify plant. Please try again.");
                              ("apiError", VBool true) ]).
Proof. reflexivity. Qed.

Example plantid_does_not_pass_600_on :
  let w := example_world unreachable (inr (mkReply 600 (inl (JsError "Unexpected end of JSON input")))) in
  fst (serve (ex_plantid w sample_request))
  = json_response 500 (VObj [ ("error", VStr "The status provided is outside the range [200, 599]") ]).
Proof. reflexivity. Qed.

Lemma missing_image_is_rejected_witness :
  serve (ex_verify (example_world unreachable unreachable) (post (VObj []))) = (image_required, [])
  /\ serve (ex_gemini (example_world unreachable unreachable) (post (VObj [ ("imageBase64", VStr "") ])))
     = (image_required, []).
Proof.
  split.
  - apply (missing_image_is_rejected example_JSON_parse example_Number_toString
             example_StringToNumber example_TypeError_message example_Response_error_message
             (example_world unreachable unreachable) (post (VObj [])) (VObj []));
      [discriminate|reflexivity|reflexivity|reflexivity].
  - apply (missing_image_is_rejected example_JSON_parse example_Number_toString
             example_StringToNumber example_TypeError_message example_Response_error_message
             (example_world unreachable unreachable)
             (post (VObj [ ("imageBase64", VStr "") ])) (VObj [ ("imageBase64", VStr "") ]));
      [discriminate|reflexivity|reflexivity|reflexivity].
Defined.

Lemma verifier_rejection_short_circuits_witness :
  let backend :=
    ex_deployed ex_gemini
      (example_world (ok_reply (chat_completion no_text))
                     (ok_reply (gemini_answer rose_text))) in
  fst (processImage backend "aGVsbG8=" "data:image/jpeg;base64,aGVsbG8=") = NotAPlant
  /\ invocations "identify-plant"
       (snd (processImage backend "aGVsbG8=" "data:image/jpeg;base64,aGVsbG8=")) = 0%nat
  /\ snd (processImage backend "aGVsbG8=" "data:image/jpeg;base64,aGVsbG8=") = [ "verify-plant" ].
Proof.
  intros backend.
  apply (verifier_rejection_short_circuits backend "aGVsbG8=" "data:image/jpeg;base64,aGVsbG8="
           (VObj [ ("isPlant", VBool false); ("confidence", VNum (9 # 10)) ]));
    reflexivity.
Defined.

Lemma gemini_unparsable_is_low_confidence_witness :
  let w := example_world (ok_reply (chat_completion yes_text))
                         (ok_reply (gemini_answer "Here you go: {commonName: Rose}")) in
  let answer := fst (serve (ex_gemini w sample_request)) in
  resp_status answer = 200%Z /\
  prop (resp_body answer) "lowConfidence" = VBool true /\
  fst (processImage (ex_deployed ex_gemini w) "aGVsbG8=" "data:image/jpeg;base64,aGVsbG8=")
  = LowConfidence /\
  LowConfidence <> TransientError.
Proof.
  intros w.
  apply (gemini_unparsable_is_low_confidence example_JSON_parse example_Number_toString
           example_StringToNumber example_TypeError_message example_Response_error_message
           w sample_request sample_image "Here you go: {commonName: Rose}"
           (ex_deployed ex_gemini w) "aGVsbG8=" "data:image/jpeg;base64,aGVsbG8=").
  - show_run.
  - intros m Hm. injection Hm as <-. eexists. reflexivity.
  - reflexivity.
  - reflexivity.
Defined.


Lemma missing_fields_take_defaults_witness :
  let g := wire (gemini_result example_Number_toString (VObj [ ("identified", VBool true) ])) in
  let r := wire (plantid_build example_Number_toString (VObj []) "No description available") in
  prop g "commonName" = VStr "Unknown Plant" /\
  prop g "scientificName" = VStr "Species unknown" /\
  prop g "about" = VStr "A beautiful plant species." /\
  prop g "explanation" = VStr "No additional details available." /\
  prop g "wateringFrequencyDays" = VNum 7 /\
  prop g "probability" = VNum (4 # 5) /\
  prop r "scientificName" = VStr "Unknown" /\
  prop r "commonName" = prop r "scientificName" /\
  prop r "wateringFrequencyDays" = VNum 7 /\
  prop r "probability" = VNum 0.
Proof.
  intros g r.
  destruct (missing_fields_take_defaults example_Number_toString example_TypeError_message
              (VObj [ ("identified", VBool true) ]) (VObj []) "No description available")
    as [[G1 [G2 [G3 [_ [G5 [G6 G7]]]]]] [[P1 [P2 [_ [P4 P5]]]] _]].
  exact (conj (G1 eq_refl) (conj (G2 eq_refl) (conj (G3 eq_refl)
          (conj (G5 eq_refl eq_refl) (conj (G6 eq_refl) (conj (G7 eq_refl)
          (conj (P1 eq_refl) (conj (P2 eq_refl) (conj (P4 eq_refl) (P5 eq_refl)))))))))).
Defined.

(** A PlantID suggestion with every optional field missing gets neither
    "Unknown Plant" nor "Species unknown" nor 0.8, and a Gemini object with an
    explanation but no [about] gets an [about] that is not taken from it. *)
Lemma claimed_defaults_fail :
  let bare := VObj [ ("suggestions", VArr [ VObj [] ]) ] in
  let r := resp_body (fst (serve (ex_plantid (example_world unreachable (ok_reply bare))
                                             sample_request))) in
  let g := resp_body (fst (serve (ex_gemini
                                    (example_world unreachable
                                       (ok_reply (gemini_answer explained_text)))
                                    sample_request))) in
  prop r "commonName" = VStr "Unknown" /\
  prop r "commonName" <> VStr "Unknown Plant" /\
  prop r "scientificName" = VStr "Unknown" /\
  prop r "scientificName" <> VStr "Species unknown" /\
  prop r "probability" = VNum 0 /\
  prop r "probability" <> VNum (4 # 5) /\
  prop g "explanation" = VStr "Thorny." /\
  prop g "about" = VStr "A beautiful plant species.".
Proof.
  cbv zeta.
  split; [reflexivity|]. split; [vm_compute; discriminate|].
  split; [reflexivity|]. split; [vm_compute; discriminate|].
  split; [reflexivity|]. split; [vm_compute; discriminate|].
  split; reflexivity.
Qed.

Lemma verifier_fails_open_witness :
  let w := example_world (inr (mkReply 503 (inl (JsError "Unexpected token in JSON")))) unreachable in
  let answer := fst (serve (ex_verify w sample_request)) in
  resp_status answer = 200%Z /\
  resp_body answer
  = VObj [ ("isPlant", VBool true); ("confidence", VNum (1 # 2)); ("fallback", VBool true) ] /\
  error (functions_invoke answer) = None /\
  snd (serve (ex_verify w sample_request)) = [ mkCall verify_url sample_image ].
Proof.
  intros w.
  apply (verifier_fails_open example_JSON_parse example_TypeError_message
           w sample_request sample_image).
  - show_run.
  - reflexivity.
Defined.

(** After a transport failure the answer has no [fallback] field: it is
    [{isPlant: true, confidence: 0.5, error: true}]. *)
Lemma transport_failure_lacks_fallback :
  let w := example_world unreachable unreachable in
  let answer := fst (serve (ex_verify w sample_request)) in
  upstream_failed (net w (mkCall verify_url sample_image)) = true /\
  resp_body answer
  <> VObj [ ("isPlant", VBool true); ("confidence", VNum (1 # 2)); ("fallback", VBool true) ] /\
  prop (resp_body answer) "fallback" = VUndefined /\
  resp_body answer
  = VObj [ ("isPlant", VBool true); ("confidence", VNum (1 # 2)); ("error", VBool true) ].
Proof.
  cbv zeta. repeat split; try reflexivity. vm_compute. discriminate.
Qed.

Lemma verifier_keyword_fallback_witness :
  let w := example_world (ok_reply (chat_completion "{isPlant: false}")) unreachable in
  resp_body (fst (serve (ex_verify w sample_request)))
  = VObj [ ("isPlant", VBool true); ("confidence", VNum (1 # 2)) ] /\
  resp_status (fst (serve (ex_verify w sample_request))) = 200%Z.
Proof.
  intros w.
  destruct (verifier_keyword_fallback example_JSON_parse example_TypeError_message
              w sample_request sample_image "{isPlant: false}") as [Hb [Hs _]].
  - show_run.
  - intros m Hm. injection Hm as <-. eexists. reflexivity.
  - split; [exact Hb|exact Hs].
Defined.

(** Text without braces never reaches the keyword test: "No." holds none of
    the four tokens, and the verifier still answers [isPlant: true]. *)
Lemma no_braces_skips_keywords :
  let w := example_world (ok_reply (chat_completion "No.")) unreachable in
  let answer := fst (serve (ex_verify w sample_request)) in
  match_braces "No." = None /\
  verify_keywords "No." = false /\
  prop (resp_body answer) "isPlant" = VBool true /\
  prop (resp_body answer) "isPlant" <> VBool (verify_keywords "No.").
Proof.
  cbv zeta. repeat split; try reflexivity. vm_compute. discriminate.
Qed.

(** C1 on the PlantID path.  The verifier says yes, PlantID's best
    suggestion has probability 0.3, and the run ends in Success with that
    probability: this revision has no confidence gate. *)
Theorem plantid_low_probability_is_success :
  let w := example_world (ok_reply (chat_completion yes_text)) (ok_reply faint_response) in
  exists result,
    processImage (ex_deployed ex_plantid w) "aGVsbG8=" "data:image/jpeg;base64,aGVsbG8="
    = (Success result, [ "verify-plant"; "identify-plant" ]) /\
    prop result "probability" = VNum (3 # 10) /\
    (3 # 10 < 1 # 2)%Q /\
    Success result <> LowConfidence.
Proof.
  cbv zeta. eexists. split; [vm_compute; reflexivity|].
  split; [reflexivity|]. split; [reflexivity|discriminate].
Qed.

(** The same probability on the Gemini path is stopped by the gate. *)
Example gemini_low_probability_is_low_confidence :
  let w := example_world (ok_reply (chat_completion yes_text))
                         (ok_reply (gemini_answer faint_rose_text)) in
  processImage (ex_deployed ex_gemini w) "aGVsbG8=" "data:image/jpeg;base64,aGVsbG8="
  = (LowConfidence, [ "verify-plant"; "identify-plant" ]).
Proof. vm_compute. reflexivity. Qed.

(** ** Further properties *)

(** *** The care schedule *)

Section CareSchedule.
Import JSDate.
Local Open Scope Z_scope.

Lemma days_task_of (z : TimeZone) (today : Z) (p : Plant) :
  daysUntilWatering (task_of z today p)
  = Dashboard.getDaysUntilWatering z today (last_watered_at p) (watering_frequency_days p).
Proof. unfold task_of. cbv zeta. cbn [daysUntilWatering]. reflexivity. Qed.

Lemma needsWater_task_of (z : TimeZone) (today : Z) (p : Plant) :
  needsWater (task_of z today p) = num_leb (daysUntilWatering (task_of z today p)) (Some 0).
Proof. unfold task_of. cbv zeta. cbn [needsWater daysUntilWatering]. reflexivity. Qed.

Lemma num_leb_iff (a : number) (b : Z) :
  num_leb a (Some b) = true <-> exists n, a = Some n /\ n <= b.
Proof.
  destruct a as [n|]; cbn [num_leb]; split.
  - intros H. exists n. split; [reflexivity|apply Z.leb_le, H].
  - intros [m [E H]]. injection E as ->. apply Z.leb_le, H.
  - discriminate.
  - intros [m [E _]]. discriminate E.
Qed.

(** The count is at most 0 exactly when the next watering date has come. *)
Lemma count_nonpositive (next today : Z) :
  (ceil_div (next - today) msPerDay <=? 0) = (next <=? today).
Proof.
  pose proof (ceil_div_spec (next - today) msPerDay msPerDay_pos) as H.
  pose proof msPerDay_pos as Hpos.
  destruct (Z.leb_spec (ceil_div (next - today) msPerDay) 0) as [Hc|Hc];
    destruct (Z.leb_spec next today) as [Hn|Hn]; try reflexivity; nia.
Qed.

Lemma needsWater_when (z : TimeZone) (today : Z) (p : Plant) :
  needsWater (task_of z today p) = watering_due z today p.
Proof.
  rewrite needsWater_task_of, days_task_of, Dashboard_days. unfold watering_due.
  destruct (next_watering z _ _) as [next|]; [|reflexivity].
  cbn [num_leb]. apply count_nonpositive.
Qed.

(** X1.  A plant is flagged as needing water exactly from the moment its
    next watering date has come, on the dashboard and in the collection
    alike, and never when that date is invalid; in a period that no offset
    change disturbs this is the moment its frequency in days of 24 hours has
    gone by since it was last watered. *)
Theorem needs_water_when_due :
  forall (z : TimeZone) (today : Z) (p : Plant),
    let next := next_watering z (last_watered_at p) (watering_frequency_days p) in
    (needsWater (task_of z today p) = true <-> exists n, next = Some n /\ n <= today) /\
    (num_leb (MyPlants.getDaysUntilWatering z today (last_watered_at p)
                (watering_frequency_days p)) (Some 0) = true
     <-> exists n, next = Some n /\ n <= today) /\
    (undisturbed z (last_watered_at p) (watering_frequency_days p) ->
     (needsWater (task_of z today p) = true <->
      last_watered_at p + watering_frequency_days p * msPerDay <= today)).
Proof.
  intros z today p next.
  assert (H1 : needsWater (task_of z today p) = true <-> exists n, next = Some n /\ n <= today).
  { rewrite needsWater_when. unfold watering_due. apply num_leb_iff. }
  split; [exact H1|]. split.
  - rewrite MyPlants_days. fold next. destruct next as [n|]; cbn [num_leb].
    + rewrite count_nonpositive. split.
      * intros H. exists n. split; [reflexivity|apply Z.leb_le, H].
      * intros [m [E H]]. injection E as ->. apply Z.leb_le, H.
    + split; [discriminate|]. intros [m [E _]]. discriminate E.
  - intros Hu. rewrite H1. unfold next. rewrite (next_watering_undisturbed z _ _ Hu).
    split.
    + intros [n [E H]]. injection E as <-. exact H.
    + intros H. eexists. split; [reflexivity|exact H].
Qed.

(** X2.  Every full day that passes lowers the count by one, and the count
    never grows while time passes; a count that is NaN stays NaN. *)
Theorem days_count_down :
  forall (z : TimeZone) (now later lastWatered frequency k : Z),
    Dashboard.getDaysUntilWatering z (now + k * msPerDay) lastWatered frequency
    = option_map (fun d => d - k) (Dashboard.getDaysUntilWatering z now lastWatered frequency) /\
    (now <= later ->
     match Dashboard.getDaysUntilWatering z now lastWatered frequency,
           Dashboard.getDaysUntilWatering z later lastWatered frequency with
     | Some d, Some d' => d' <= d
     | None, None => True
     | _, _ => False
     end).
Proof.
  intros z now later lastWatered frequency k.
  rewrite !Dashboard_days.
  destruct (next_watering z lastWatered frequency) as [next|]; cbn [option_map];
    [|split; [reflexivity|intros _; exact I]].
  split.
  - f_equal. unfold ceil_div.
    replace (- (next - (now + k * msPerDay))) with (- (next - now) + k * msPerDay) by lia.
    rewrite Z.div_add by (unfold msPerDay; lia). lia.
  - intros Hle.
    pose proof (ceil_div_spec (next - later) msPerDay msPerDay_pos) as H1.
    pose proof (ceil_div_spec (next - now) msPerDay msPerDay_pos) as H2.
    pose proof msPerDay_pos. nia.
Qed.

(** X3.  Right after a watering is recorded (or a plant is saved) the count
    is the plant's frequency, also when the clocks are set forward before
    the next watering; when they are set back before it, the count is the
    frequency plus one. *)
Theorem watered_now_counts_frequency :
  forall (z : TimeZone) (now frequency : Z),
    let local := LocalTime z now + frequency * msPerDay in
    let change := offset_of_local z local - offset_at z now in
    Z.abs now <= maxTime ->
    Z.abs (UTC z local) <= maxTime ->
    (0 <= change < msPerDay ->
     Dashboard.getDaysUntilWatering z now now frequency = Some frequency /\
     MyPlants.getDaysUntilWatering z now now frequency = Some frequency) /\
    (- msPerDay < change < 0 ->
     Dashboard.getDaysUntilWatering z now now frequency = Some (frequency + 1) /\
     MyPlants.getDaysUntilWatering z now now frequency = Some (frequency + 1)).
Proof.
  intros z now frequency local change Hnow Hnext.
  rewrite Dashboard_days, MyPlants_days, next_watering_value, (TimeClip_in _ Hnow).
  fold local. rewrite (TimeClip_in _ Hnext).
  assert (Hdiff : UTC z local - now = frequency * msPerDay - change).
  { unfold change, UTC, local, LocalTime. lia. }
  rewrite Hdiff. pose proof msPerDay_pos as Hpos.
  split; intros Hc.
  - rewrite (ceil_div_unique (frequency * msPerDay - change) msPerDay frequency Hpos)
      by nia.
    split; reflexivity.
  - rewrite (ceil_div_unique (frequency * msPerDay - change) msPerDay (frequency + 1) Hpos)
      by nia.
    split; reflexivity.
Qed.

Lemma insert_task_perm (t : Task) (l : list Task) :
  Permutation (insert_task t l) (t :: l).
Proof.
  induction l as [|u l IH]; simpl; [apply Permutation_refl|].
  destruct (compare_tasks t u <=? 0); [apply Permutation_refl|].
  apply perm_trans with (u :: t :: l); [apply perm_skip, IH|apply perm_swap].
Qed.

Lemma sort_tasks_perm (l : list Task) : Permutation (sort_tasks l) l.
Proof.
  induction l as [|t l IH]; simpl; [apply perm_nil|].
  apply perm_trans with (t :: sort_tasks l); [apply insert_task_perm|apply perm_skip, IH].
Qed.

Lemma by_days_numbers (a b : Task) (x y : Z) :
  daysUntilWatering a = Some x -> daysUntilWatering b = Some y ->
  (by_days a b <-> x <= y).
Proof. intros Ha Hb. unfold by_days. rewrite Ha, Hb. reflexivity. Qed.

Lemma by_days_trans (a b c : Task) : by_days a b -> by_days b c -> by_days a c.
Proof.
  unfold by_days.
  destruct (daysUntilWatering a), (daysUntilWatering b), (daysUntilWatering c);
    try contradiction; lia.
Qed.

Lemma insert_task_sorted (t : Task) (l : list Task) :
  daysUntilWatering t <> None ->
  Forall (fun u => daysUntilWatering u <> None) l ->
  StronglySorted by_days l -> StronglySorted by_days (insert_task t l).
Proof.
  intros Ht Hnum Hs. induction Hs as [|u l Hs IH Hall]; simpl.
  - constructor; constructor.
  - pose proof (Forall_inv Hnum) as Hu. cbv beta in Hu.
    destruct (daysUntilWatering t) as [x|] eqn:Ex; [|congruence].
    destruct (daysUntilWatering u) as [y|] eqn:Ey; [|congruence].
    unfold compare_tasks. rewrite Ex, Ey. cbn [num_sub].
    destruct (Z.leb_spec (x - y) 0) as [Hle|Hgt].
    + constructor; [constructor; assumption|].
      assert (Htu : by_days t u) by (apply (by_days_numbers t u x y Ex Ey); lia).
      constructor; [exact Htu|].
      eapply Forall_impl; [|exact Hall]. intros v Hv.
      apply (by_days_trans t u v Htu Hv).
    + constructor; [apply IH; exact (Forall_inv_tail Hnum)|].
      apply (Permutation_Forall (Permutation_sym (insert_task_perm t l))).
      constructor; [apply (by_days_numbers u t y x Ey Ex); lia|exact Hall].
Qed.

Lemma sort_tasks_sorted (l : list Task) :
  Forall (fun u => daysUntilWatering u <> None) l ->
  StronglySorted by_days (sort_tasks l).
Proof.
  induction l as [|t l IH]; intros Hnum; simpl; [constructor|].
  apply insert_task_sorted.
  - exact (Forall_inv Hnum).
  - apply (Permutation_Forall (Permutation_sym (sort_tasks_perm l))).
    exact (Forall_inv_tail Hnum).
  - apply IH. exact (Forall_inv_tail Hnum).
Qed.

Lemma counted_rows (z : TimeZone) (today : Z) (rows : list Plant) :
  Forall (counted z today) rows ->
  Forall (fun u => daysUntilWatering u <> None) (map (task_of z today) rows).
Proof.
  intros H. apply Forall_forall. intros t Ht. apply in_map_iff in Ht.
  destruct Ht as [p [<- Hp]]. exact (proj1 (Forall_forall _ _) H p Hp).
Qed.

(** X4.  The dashboard lists every plant of the query exactly once, and,
    when the count of every row is a number, in ascending order of days
    until watering. *)
Theorem fetchTasks_sorted_permutation :
  forall (z : TimeZone) (today : Z) (rows : list Plant),
    Permutation (fetchTasks z today rows) (map (task_of z today) rows) /\
    Permutation (map plant (fetchTasks z today rows)) rows /\
    (Forall (counted z today) rows -> StronglySorted by_days (fetchTasks z today rows)).
Proof.
  intros z today rows. unfold fetchTasks.
  split; [apply sort_tasks_perm|]. split.
  - apply perm_trans with (map plant (map (task_of z today) rows)).
    + apply Permutation_map, sort_tasks_perm.
    + rewrite map_map. simpl. rewrite map_id. apply Permutation_refl.
  - intros Hnum. apply sort_tasks_sorted, counted_rows, Hnum.
Qed.



Lemma later_tasks_not_overdue (t : Task) (l : list Task) :
  num_leb (daysUntilWatering t) (Some 0) = false ->
  daysUntilWatering t <> None ->
  Forall (by_days t) l ->
  Forall (fun u => needsWater u = num_leb (daysUntilWatering u) (Some 0)) l ->
  filter needsWater l = [].
Proof.
  intros Hft Ht Hall Hflag.
  induction l as [|u l IH]; [reflexivity|].
  pose proof (Forall_inv Hall) as Hu. pose proof (Forall_inv Hflag) as Hnu.
  cbv beta in Hnu. cbn [filter]. rewrite Hnu. unfold by_days in Hu.
  destruct (daysUntilWatering t) as [x|]; [|congruence].
  destruct (daysUntilWatering u) as [y|]; [|contradiction].
  cbn [num_leb] in *. apply Z.leb_gt in Hft.
  destruct (Z.leb_spec y 0); [lia|].
  apply IH; [exact (Forall_inv_tail Hall)|exact (Forall_inv_tail Hflag)].
Qed.

Lemma sorted_overdue_prefix (l : list Task) :
  StronglySorted by_days l ->
  Forall (fun t => daysUntilWatering t <> None) l ->
  Forall (fun t => needsWater t = num_leb (daysUntilWatering t) (Some 0)) l ->
  l = (filter needsWater l ++ filter (fun t => negb (needsWater t)) l)%list.
Proof.
  induction 1 as [|t l Hs IH Hall]; intros Hnum Hn; [reflexivity|].
  pose proof (Forall_inv Hn) as Ht. pose proof (Forall_inv_tail Hn) as Hl.
  pose proof (Forall_inv Hnum) as Htn. pose proof (Forall_inv_tail Hnum) as Hln.
  cbv beta in Ht, Htn.
  cbn [filter]. destruct (needsWater t) eqn:Hw; cbn [negb].
  - simpl. f_equal. apply IH; assumption.
  - symmetry in Ht.
    pose proof (later_tasks_not_overdue t l Ht Htn Hall Hl) as Hnone.
    rewrite Hnone. simpl. f_equal.
    rewrite (IH Hln Hl) at 1. rewrite Hnone. reflexivity.
Qed.

Lemma sort_tasks_overdue (l : list Task) :
  Permutation (filter needsWater (sort_tasks l)) (filter needsWater l).
Proof.
  induction l as [|t l IH]; [apply perm_nil|].
  simpl sort_tasks.
  apply perm_trans with (filter needsWater (t :: sort_tasks l)).
  - clear IH. induction (sort_tasks l) as [|u m IHm]; [apply Permutation_refl|].
    cbn [insert_task].
    destruct (compare_tasks t u <=? 0); [apply Permutation_refl|].
    cbn [filter] in *.
    destruct (needsWater u), (needsWater t); try exact IHm.
    + apply perm_trans with (u :: t :: filter needsWater m);
        [apply perm_skip, IHm|apply perm_swap].
    + apply perm_skip, IHm.
  - cbn [filter]. destruct (needsWater t); [apply perm_skip|]; exact IH.
Qed.

(** X6.  The count in the banner of the dashboard is the number of rows
    whose next watering date has come; and, when the count of every row is a
    number, the plants that need water come first: the first [overdueCount]
    tasks are exactly the overdue ones. *)
Theorem overdue_come_first :
  forall (z : TimeZone) (today : Z) (rows : list Plant),
    let tasks := fetchTasks z today rows in
    overdueCount tasks = List.length (filter (watering_due z today) rows) /\
    (Forall (counted z today) rows ->
     firstn (overdueCount tasks) tasks = filter needsWater tasks /\
     skipn (overdueCount tasks) tasks = filter (fun t => negb (needsWater t)) tasks).
Proof.
  intros z today rows tasks. split.
  - unfold overdueCount, tasks, fetchTasks.
    rewrite (Permutation_length (sort_tasks_overdue (map (task_of z today) rows))).
    induction rows as [|p rows IH]; [reflexivity|].
    cbn [map filter]. rewrite needsWater_when.
    destruct (watering_due z today p); simpl; rewrite IH; reflexivity.
  - intros Hnum.
    assert (Hperm : Permutation (map (task_of z today) rows) tasks)
      by apply Permutation_sym, sort_tasks_perm.
    assert (Hflag : Forall (fun t => needsWater t = num_leb (daysUntilWatering t) (Some 0)) tasks).
    { apply (Permutation_Forall Hperm).
      apply Forall_forall. intros t Ht. apply in_map_iff in Ht.
      destruct Ht as [p [<- _]]. apply needsWater_task_of. }
    assert (Hn : Forall (fun t => daysUntilWatering t <> None) tasks)
      by (apply (Permutation_Forall Hperm), counted_rows, Hnum).
    pose proof (sorted_overdue_prefix tasks
                  (sort_tasks_sorted _ (counted_rows z today rows Hnum)) Hn Hflag) as Hsplit.
    unfold overdueCount. split.
    + rewrite Hsplit at 2. rewrite firstn_app, Nat.sub_diag, firstn_all. simpl.
      apply app_nil_r.
    + rewrite Hsplit at 2. rewrite skipn_app, Nat.sub_diag, skipn_all. reflexivity.
Qed.

End CareSchedule.

(** *** The further properties at concrete runs *)

Abbreviation ex_gemini_more :=
  (identify_plant_gemini example_JSON_parse_more example_Number_toString
     example_StringToNumber example_TypeError_message
     example_Response_error_message).
Abbreviation sample_preview := "data:image/jpeg;base64,aGVsbG8=".

Lemma needs_water_when_due_witness :
  let z := new_york_autumn_2024 in
  needsWater (task_of z 1709300000000 basil) = true /\
  (last_watered_at basil + watering_frequency_days basil * JSDate.msPerDay <= 1709300000000)%Z.
Proof.
  intros z.
  destruct (needs_water_when_due z 1709300000000 basil) as [_ [_ H]].
  assert (Hdue : (last_watered_at basil + watering_frequency_days basil * JSDate.msPerDay
                  <= 1709300000000)%Z) by evaluated.
  split; [|exact Hdue].
  apply H; [repeat split; evaluated|exact Hdue].
Defined.

Lemma days_count_down_witness :
  let z := JSDate.fixed_zone 0%Z in
  Dashboard.getDaysUntilWatering z (1709208000000 + 3 * JSDate.msPerDay) 1709208000000 7
  = option_map (fun d => (d - 3)%Z) (Dashboard.getDaysUntilWatering z 1709208000000 1709208000000 7)
  /\ match Dashboard.getDaysUntilWatering z 1709208000000 1709208000000 7,
           Dashboard.getDaysUntilWatering z 1709300000000 1709208000000 7 with
     | Some d, Some d' => (d' <= d)%Z
     | None, None => True
     | _, _ => False
     end.
Proof.
  intros z.
  destruct (days_count_down z 1709208000000 1709300000000 1709208000000 7 3) as [Hshift Hmono].
  split; [exact Hshift|]. apply Hmono. lia.
Defined.

Lemma watered_now_counts_frequency_witness :
  Dashboard.getDaysUntilWatering new_york_spring_2024 1709744400000 1709744400000 7 = Some 7%Z /\
  Dashboard.getDaysUntilWatering new_york_autumn_2024 1730304000000 1730304000000 7 = Some 8%Z.
Proof.
  split.
  - refine (proj1 (proj1 (watered_now_counts_frequency new_york_spring_2024 1709744400000 7 _ _) _));
      [evaluated|evaluated|split; evaluated].
  - refine (proj1 (proj2 (watered_now_counts_frequency new_york_autumn_2024 1730304000000 7 _ _) _));
      [evaluated|evaluated|split; evaluated].
Defined.

Lemma fetchTasks_sorted_permutation_witness :
  StronglySorted by_days (fetchTasks (JSDate.fixed_zone 0%Z) 1709300000000 [ fern; basil ]).
Proof.
  apply (fetchTasks_sorted_permutation (JSDate.fixed_zone 0%Z) 1709300000000 [ fern; basil ]).
  repeat constructor; evaluated.
Defined.


Lemma overdue_come_first_witness :
  let tasks := fetchTasks (JSDate.fixed_zone 0%Z) 1709300000000 [ fern; basil ] in
  firstn (overdueCount tasks) tasks = filter needsWater tasks /\
  skipn (overdueCount tasks) tasks = filter (fun t => negb (needsWater t)) tasks.
Proof.
  intros tasks.
  apply (overdue_come_first (JSDate.fixed_zone 0%Z) 1709300000000 [ fern; basil ]).
  repeat constructor; evaluated.
Defined.

Lemma split_join_round_trip_witness :
  join ". " (split ". " "A flowering shrub. It has thorns.") = "A flowering shrub. It has thorns.".
Proof. apply (split_join_round_trip ". " "A flowering shrub. It has thorns."). discriminate. Defined.

Lemma fenced_object_is_read_bare_witness :
  let body := quoted "isPlant" ++ ":true," ++ quoted "confidence" ++ ":0.9" in
  let bare := "{" ++ body ++ "}" in
  gemini_parse example_JSON_parse example_TypeError_message
    (VStr ("Here it is: " ++ bare ++ " Enjoy!"))
  = example_JSON_parse bare /\
  verify_interpret example_JSON_parse example_TypeError_message
    (VStr ("Here it is: " ++ bare ++ " Enjoy!"))
  = inr (VObj [ ("isPlant", VBool true); ("confidence", VNum (9 # 10)) ]).
Proof.
  intros body bare.
  destruct (fenced_object_is_read_bare example_JSON_parse example_Number_toString
              example_StringToNumber example_TypeError_message
              "Here it is: " body " Enjoy!" eq_refl eq_refl) as [Hg [_ Hv]].
  split; [exact Hg|]. apply Hv. reflexivity.
Defined.

Lemma gemini_success_passed_the_gate_witness :
  let w := example_world unreachable (ok_reply (gemini_answer rose_text)) in
  exists image content plantData,
    gemini_run_reads w sample_request image content /\
    gemini_parse example_JSON_parse example_TypeError_message content = inr plantData /\
    truthy (prop plantData "identified") = true /\
    lt_number example_Number_toString example_StringToNumber
      (prop plantData "confidence") (1 # 2) = false /\
    resp_body (fst (serve (ex_gemini w sample_request)))
    = wire (gemini_result example_Number_toString plantData) /\
    forall p,
      prop (resp_body (fst (serve (ex_gemini w sample_request)))) "probability" = VNum p ->
      (1 # 2 <= p)%Q.
Proof.
  intros w.
  apply (gemini_success_passed_the_gate example_JSON_parse example_Number_toString
           example_StringToNumber example_TypeError_message example_Response_error_message
           w sample_request).
  reflexivity.
Defined.

Lemma not_identified_is_low_confidence_witness :
  let w := example_world unreachable (ok_reply (gemini_answer unsure_text)) in
  let answer := fst (serve (ex_gemini_more w sample_request)) in
  resp_status answer = 200%Z /\
  prop (resp_body answer) "lowConfidence" = VBool true /\
  prop (resp_body answer) "probability" = VNum (99 # 100) /\
  after_identify (functions_invoke answer) sample_preview = LowConfidence.
Proof.
  intros w.
  apply (not_identified_is_low_confidence example_JSON_parse_more example_Number_toString
           example_StringToNumber example_TypeError_message example_Response_error_message
           w sample_request sample_image
           (VObj [ ("identified", VBool false); ("confidence", VNum (99 # 100));
                   ("commonName", VStr "Rose") ])
           unsure_text sample_preview).
  - show_run.
  - reflexivity.
  - reflexivity.
  - reflexivity.
Defined.

Lemma missing_confidence_is_accepted_witness :
  let w := example_world unreachable (ok_reply (gemini_answer explained_text)) in
  let answer := fst (serve (ex_gemini w sample_request)) in
  is_success answer = true /\
  prop (resp_body answer) "probability" = VNum (4 # 5) /\
  after_identify (functions_invoke answer) sample_preview
  = Success (with_imageUrl (resp_body answer) sample_preview).
Proof.
  intros w.
  apply (missing_confidence_is_accepted example_JSON_parse example_Number_toString
           example_StringToNumber example_TypeError_message example_Response_error_message
           w sample_request sample_image
           (VObj [ ("identified", VBool true); ("explanation", VStr "Thorny.") ])
           explained_text sample_preview).
  - show_run.
  - reflexivity.
  - reflexivity.
  - reflexivity.
Defined.

Lemma gemini_failure_is_transient_witness :
  let w := example_world unreachable (inr (mkReply 304 (inl (JsError "Unexpected end of JSON input")))) in
  let answer := fst (serve (ex_gemini w sample_request)) in
  resp_status answer = 500%Z /\
  prop (resp_body answer) "error" = VStr "Response with null body status cannot have body" /\
  prop (resp_body answer) "apiError" = VBool true /\
  snd (serve (ex_gemini w sample_request)) = [ gemini_call w sample_image ] /\
  after_identify (functions_invoke answer) sample_preview = TransientError.
Proof.
  intros w.
  apply (gemini_failure_is_transient example_JSON_parse example_Number_toString
           example_StringToNumber example_TypeError_message example_Response_error_message
           w sample_request sample_image sample_preview).
  - show_run.
  - reflexivity.
Defined.

Lemma missing_key_is_a_configuration_error_witness :
  serve (ex_gemini keyless_world sample_request)
  = (json_response 500 (VObj [ ("error", VStr "API key not configured");
                               ("apiError", VBool true) ]), [])
  /\ serve (ex_verify keyless_world sample_request)
     = (json_response 500 (VObj [ ("error", VStr "API key not configured") ]), []).
Proof.
  destruct (missing_key_is_a_configuration_error example_JSON_parse example_Number_toString
              example_StringToNumber example_TypeError_message example_Response_error_message
              keyless_world sample_request (VObj [ ("imageBase64", VStr "aGVsbG8=") ])
              ltac:(discriminate) eq_refl eq_refl eq_refl) as [Hg [_ Hv]].
  split; [apply Hg|apply Hv]; reflexivity.
Defined.

Lemma no_suggestion_is_transient_witness :
  let w := example_world unreachable (ok_reply (VObj [ ("suggestions", VArr []) ])) in
  fst (serve (ex_plantid w sample_request))
  = json_response 404 (VObj [ ("error", VStr "No plant identified") ])
  /\ after_identify (functions_invoke (fst (serve (ex_plantid w sample_request)))) sample_preview
     = TransientError
  /\ TransientError <> LowConfidence.
Proof.
  intros w.
  apply (no_suggestion_is_transient example_Number_toString example_TypeError_message example_Response_error_message
           w sample_request sample_image (VObj [ ("suggestions", VArr []) ]) sample_preview).
  - show_run.
  - reflexivity.
  - reflexivity.
Defined.

Lemma verifier_passes_the_object_on_witness :
  let w := example_world (ok_reply (chat_completion ("Sure. " ++ "{}"))) unreachable in
  let answer := fst (serve (ex_verify w sample_request)) in
  resp_status answer = 200%Z /\
  resp_body answer = VObj [] /\
  verification_rejects (functions_invoke answer) = true.
Proof.
  intros w.
  apply (verifier_passes_the_object_on example_JSON_parse example_TypeError_message
           w sample_request sample_image (VObj []) ("Sure. " ++ "{}") "{}").
  - show_run.
  - reflexivity.
  - reflexivity.
Defined.

Lemma naming_isPlant_reads_as_plant_witness :
  let w := example_world (ok_reply (chat_completion "{isPlant: FALSE}")) unreachable in
  let answer := fst (serve (ex_verify w sample_request)) in
  prop (resp_body answer) "isPlant" = VBool true /\
  verification_rejects (functions_invoke answer) = false.
Proof.
  intros w.
  apply (naming_isPlant_reads_as_plant example_JSON_parse example_TypeError_message
           w sample_request sample_image "{isPlant: FALSE}" "{isPlant: FALSE}"
           (JsError "Unexpected token in JSON")).
  - show_run.
  - reflexivity.
  - reflexivity.
  - reflexivity.
Defined.

Lemma failed_verification_lets_the_run_go_on_witness :
  let w := example_world unreachable (ok_reply (gemini_answer rose_text)) in
  processImage (ex_deployed ex_gemini w) "aGVsbG8=" sample_preview
  = (after_identify (ex_deployed ex_gemini w "identify-plant" (image_body "aGVsbG8="))
       sample_preview,
     [ "verify-plant"; "identify-plant" ]).
Proof.
  intros w.
  apply (failed_verification_lets_the_run_go_on example_JSON_parse example_TypeError_message
           ex_gemini w "aGVsbG8=" sample_preview).
  - discriminate.
  - right. reflexivity.
Defined.

Lemma success_carries_the_answer_and_the_preview_witness :
  let backend :=
    ex_deployed ex_gemini
      (example_world (ok_reply (chat_completion yes_text))
                     (ok_reply (gemini_answer rose_text))) in
  exists result,
    fst (processImage backend "aGVsbG8=" sample_preview) = Success result /\
    prop result "imageUrl" = VStr sample_preview /\
    prop result "commonName" = VStr "Rose".
Proof.
  intros backend. eexists. split; [vm_compute; reflexivity|].
  match goal with
  | |- prop ?r _ = _ /\ _ =>
      destruct (success_carries_the_answer_and_the_preview backend "aGVsbG8=" sample_preview r
                  ltac:(vm_compute; reflexivity)) as [Hurl [Hsame _]]
  end.
  split; [exact Hurl|]. rewrite Hsame by discriminate. reflexivity.
Defined.

Lemma data_url_payload_witness :
  base64_of_dataUrl "data:image/jpeg;base64,aGVsbG8=" = Some "aGVsbG8="
  /\ base64_of_dataUrl "data:image/jpeg;base64" = None.
Proof.
  apply (data_url_payload "data:image/jpeg;base64" "aGVsbG8="); reflexivity.
Defined.

Lemma description_not_text_is_an_error_witness :
  let reply :=
    VObj [ ("suggestions",
            VArr [ VObj [ ("plant_name", VStr "Rosa");
                          ("plant_details",
                            VObj [ ("description", VObj [ ("value", VNum 5) ]) ]) ] ]) ] in
  let w := example_world unreachable (ok_reply reply) in
  fst (serve (ex_plantid w sample_request))
  = json_response 500
      (VObj [ ("error", VStr (example_TypeError_message "rawDescription.split")) ])
  /\ after_identify (functions_invoke (fst (serve (ex_plantid w sample_request)))) sample_preview
     = TransientError.
Proof.
  intros reply w.
  apply (description_not_text_is_an_error example_Number_toString example_TypeError_message example_Response_error_message
           w sample_request sample_image reply sample_preview).
  - show_run.
  - reflexivity.
  - reflexivity.
  - intros raw. vm_compute. discriminate.
Defined.

Lemma no_completion_text_is_low_confidence_witness :
  let w := example_world unreachable (ok_reply (VObj [ ("candidates", VArr []) ])) in
  let answer := fst (serve (ex_gemini w sample_request)) in
  resp_status answer = 200%Z /\
  prop (resp_body answer) "lowConfidence" = VBool true /\
  prop (resp_body answer) "error" = VStr "No identification result" /\
  after_identify (functions_invoke answer) sample_preview = LowConfidence.
Proof.
  intros w.
  apply (no_completion_text_is_low_confidence example_JSON_parse example_Number_toString
           example_StringToNumber example_TypeError_message example_Response_error_message
           w sample_request sample_image VUndefined sample_preview).
  - show_run.
  - left. intros text. discriminate.
Defined.

Lemma body_that_is_not_json_witness :
  let req := mkRequest "POST" (inl (JsError "Unexpected end of JSON input")) in
  let w := example_world unreachable unreachable in
  serve (ex_gemini w req)
  = (json_response 500 (VObj [ ("error", VStr "Unexpected end of JSON input");
                               ("apiError", VBool true) ]), [])
  /\ serve (ex_plantid w req)
     = (json_response 500 (VObj [ ("error", VStr "Unexpected end of JSON input") ]), [])
  /\ serve (ex_verify w req) = (json_response 200 verify_on_error, [])
  /\ prop (resp_body (fst (serve (ex_verify w req)))) "isPlant" = VBool true.
Proof.
  intros req w.
  apply (body_that_is_not_json example_JSON_parse example_Number_toString
           example_StringToNumber example_TypeError_message example_Response_error_message
           w req (JsError "Unexpected end of JSON input")).
  - discriminate.
  - reflexivity.
Defined.

(** The dashboard on two plants: the one watered earlier comes first. *)
Example dashboard_of_two :
  map (fun t => (common_name (plant t), daysUntilWatering t, needsWater t))
      (fetchTasks (JSDate.fixed_zone 0%Z) 1709300000000 [ fern; basil ])
  = [ ("Basil", Some (-13)%Z, true); ("Fern", Some 6%Z, false) ]
  /\ overdueCount (fetchTasks (JSDate.fixed_zone 0%Z) 1709300000000 [ fern; basil ]) = 1%nat.
Proof. split; vm_compute; reflexivity. Qed.
